(** * LightBnB: the query service of [server/database.js]

    A shallow embedding of the six promise-returning operations of the
    data-access layer, of the SQL text they build, and of the meaning of
    that SQL on tables, followed by the properties of the specification
    that concern them. *)

From Stdlib Require Import ZArith QArith String Ascii List Lia.
From Stdlib Require Import DecimalString DecimalPos DecimalZ Sorted.
From stdpp Require Import base strings gmap list.

Local Open Scope string_scope.
Local Open Scope Z_scope.

(** ** JavaScript values *)

Module Js.

(** The values an option, a limit or a bound parameter can take.
    Numbers are the integers (printed by [String(n)] in plain decimal
    form) and [NaN]; the other numbers do not occur in this module's
    callers and are left out.  [JNum n] stands for a number only while
    [n] is below 10^21 in absolute value: from there on JavaScript prints
    an exponent, which [dec] does not. *)
Inductive JsVal : Type :=
| JUndefined
| JNull
| JBool (b : bool)
| JNum (n : Z)
| JNaN
| JStr (s : string).

(** ToBoolean, the test of [if (v)]. *)
Definition truthy (v : JsVal) : bool :=
  match v with
  | JUndefined | JNull | JNaN => false
  | JBool b => b
  | JNum n => negb (n =? 0)
  | JStr s => match s with EmptyString => false | String _ _ => true end
  end.

(** Decimal digits of an integer, [String(n)]. *)
Definition dec (n : Z) : string := NilZero.string_of_int (Z.to_int n).

(** ToString, what a template literal does to [${v}]. *)
Definition to_string (v : JsVal) : string :=
  match v with
  | JUndefined => "undefined"
  | JNull => "null"
  | JBool true => "true"
  | JBool false => "false"
  | JNum n => dec n
  | JNaN => "NaN"
  | JStr s => s
  end.

(** A plain object is a dictionary [gmap string JsVal]; reading a key
    that is not there gives [undefined], so [o.k] is [o !!! k]. *)
#[export] Instance JsVal_inhabited : Inhabited JsVal := populate JUndefined.

(** [arr.push(x)]. *)
Definition push {A} (arr : list A) (x : A) : list A := (arr ++ [x])%list.

(** [arr.length] as it is spliced into a template literal. *)
Definition len {A} (arr : list A) : string := dec (Z.of_nat (length arr)).

End Js.
Import Js.

(** The line feed of a multi-line template literal. *)
Definition nl : string := String (ascii_of_nat 10) EmptyString.

(** ** The statement built by [getAllProperties] *)

(** A default parameter takes over when the argument is [undefined]. *)
Definition default_arg (v d : JsVal) : JsVal :=
  match v with JUndefined => d | _ => v end.

(** Lines 151-201 of [getAllProperties]: the three variables
    [queryParams], [whereAnd] and [queryString] threaded through the five
    conditionals, then the unconditional tail.  The result is the pair
    handed to [pool.query]. *)
Definition build_statement (options : gmap string JsVal) (limit : JsVal)
  : string * list JsVal :=
  let limit := default_arg limit (JNum 10) in
  let queryParams : list JsVal := [] in
  let whereAnd := "WHERE" in
  let queryString :=
    nl +:+ "  SELECT properties.*, AVG(property_reviews.rating) AS average_rating" +:+
    nl +:+ "  FROM properties" +:+
    nl +:+ "    JOIN property_reviews ON properties.id = property_id" +:+
    nl +:+ "  " in
  let '(queryParams, whereAnd, queryString) :=
    if truthy (options !!! "owner_id") then
      let queryParams := push queryParams (JStr (to_string (options !!! "owner_id"))) in
      let queryString :=
        queryString +:+ whereAnd +:+ " owner_id = $" +:+ len queryParams +:+ " " in
      (queryParams, whereAnd, queryString)
    else (queryParams, whereAnd, queryString) in
  let '(queryParams, whereAnd, queryString) :=
    if truthy (options !!! "city") then
      let queryParams :=
        push queryParams (JStr ("%" +:+ to_string (options !!! "city") +:+ "%")) in
      let queryString :=
        queryString +:+ whereAnd +:+ " city LIKE $" +:+ len queryParams +:+ " " in
      let whereAnd := "AND" in
      (queryParams, whereAnd, queryString)
    else (queryParams, whereAnd, queryString) in
  let '(queryParams, whereAnd, queryString) :=
    if truthy (options !!! "minimum_price_per_night") then
      let queryParams :=
        push queryParams (JStr (to_string (options !!! "minimum_price_per_night"))) in
      let queryString :=
        queryString +:+ nl +:+ "    " +:+ whereAnd +:+
        " cost_per_night / 100 > $" +:+ len queryParams +:+ " " +:+
        nl +:+ "    " in
      let whereAnd := "AND" in
      (queryParams, whereAnd, queryString)
    else (queryParams, whereAnd, queryString) in
  let '(queryParams, whereAnd, queryString) :=
    if truthy (options !!! "maximum_price_per_night") then
      let queryParams :=
        push queryParams (JStr (to_string (options !!! "maximum_price_per_night"))) in
      let queryString :=
        queryString +:+ nl +:+ "    " +:+ whereAnd +:+
        " cost_per_night / 100 < $" +:+ len queryParams +:+
        nl +:+ "    " in
      (queryParams, whereAnd, queryString)
    else (queryParams, whereAnd, queryString) in
  let queryString := queryString +:+ "GROUP BY properties.id " in
  let '(queryParams, queryString) :=
    if truthy (options !!! "minimum_rating") then
      let queryParams :=
        push queryParams (JStr (to_string (options !!! "minimum_rating"))) in
      let queryString :=
        queryString +:+ nl +:+
        "    HAVING AVG(property_reviews.rating) >= $" +:+ len queryParams +:+ " " in
      (queryParams, queryString)
    else (queryParams, queryString) in
  let queryParams := push queryParams (limit) in
  let queryString :=
    queryString +:+ nl +:+ "  ORDER BY cost_per_night" +:+
    nl +:+ "  LIMIT $" +:+ len queryParams +:+ ";" +:+
    nl +:+ "  " in
  (queryString, queryParams).

(** ** Promises, exceptions and the console *)

Module Promise.

(** A thrown or rejected [Error]; only its [message] is ever read. *)
Record JsError : Type := Error { message : string }.

(** How a promise settles. *)
Inductive Settled (A : Type) : Type :=
| Fulfilled (a : A)
| Rejected (e : JsError).
Arguments Fulfilled {A} a.
Arguments Rejected {A} e.

(** What an operation can change: the database behind the pool and the
    lines written by [console.log], oldest first. *)
Record World (Db : Type) : Type := mkWorld { db : Db; console : list string }.
Arguments mkWorld {Db} db console.
Arguments db {Db} w.
Arguments console {Db} w.

(** A promise-returning computation. *)
Definition Js (Db A : Type) : Type := World Db -> World Db * Settled A.

Section Combinators.
Context {Db : Type}.

(** [return a] inside a callback. *)
Definition ret {A} (a : A) : Js Db A := fun w => (w, Fulfilled a).

(** [throw e] inside a callback. *)
Definition throw {A} (e : JsError) : Js Db A := fun w => (w, Rejected e).

(** [p.then(f)]: [f] runs on fulfilment, a rejection passes through. *)
Definition then_ {A B} (p : Js Db A) (f : A -> Js Db B) : Js Db B :=
  fun w =>
    match p w with
    | (w', Fulfilled a) => f a w'
    | (w', Rejected e) => (w', Rejected e)
    end.

(** [p.catch(h)]: [h] runs on rejection, a fulfilment passes through. *)
Definition catch_ {A} (p : Js Db A) (h : JsError -> Js Db A) : Js Db A :=
  fun w =>
    match p w with
    | (w', Fulfilled a) => (w', Fulfilled a)
    | (w', Rejected e) => h e w'
    end.

(** [console.log(s)]. *)
Definition console_log (s : string) : Js Db unit :=
  fun w => (mkWorld (db w) (console w ++ [s])%list, Fulfilled tt).
End Combinators.

End Promise.
Import Promise.

Notation "p '.then' f" := (then_ p f) (at level 50, left associativity).
Notation "p '.catch' h" := (catch_ p h) (at level 50, left associativity).
Notation "c1 >> c2" := (then_ c1 (fun _ => c2)) (at level 62, right associativity).

(** ** The six operations, over any pool *)

(** What an operation's promise is fulfilled with. *)
Inductive Value (Row : Type) : Type :=
| VUndefined
| VNull
| VRow (r : Row)
| VRows (rs : list Row).
Arguments VUndefined {Row}.
Arguments VNull {Row}.
Arguments VRow {Row} r.
Arguments VRows {Row} rs.

(** [arr.join(sep)] on strings. *)
Fixpoint join (sep : string) (arr : list string) : string :=
  match arr with
  | [] => ""
  | [x] => x
  | x :: rest => x +:+ sep +:+ join sep rest
  end.

(** The text and the values each operation hands to [pool.query]
    (the statement of [getAllProperties] is [build_statement] above). *)

Definition getUserWithEmail_statement (email : JsVal) : string * list JsVal :=
  let queryString :=
    nl +:+ "  SELECT id," +:+
    nl +:+ "    name," +:+
    nl +:+ "    email," +:+
    nl +:+ "    password" +:+
    nl +:+ "  FROM users" +:+
    nl +:+ "  WHERE email = $1;" +:+
    nl +:+ "  " in
  (queryString, [email]).

Definition getUserWithId_statement (id : JsVal) : string * list JsVal :=
  let queryString :=
    nl +:+ "  SELECT id," +:+
    nl +:+ "    name," +:+
    nl +:+ "    email," +:+
    nl +:+ "    password" +:+
    nl +:+ "  FROM users" +:+
    nl +:+ "  WHERE id = $1;" +:+
    nl +:+ "  " in
  (queryString, [id]).

Definition addUser_statement (user : gmap string JsVal) : string * list JsVal :=
  let queryString :=
    nl +:+ "  INSERT INTO users(name, password, email)" +:+
    nl +:+ "  VALUES($1, $2, $3)" +:+
    nl +:+ "  RETURNING *;" +:+
    nl +:+ "  " in
  let values := [user !!! "name"; user !!! "password"; user !!! "email"] in
  (queryString, values).

Definition getAllReservations_statement (guest_id limit : JsVal)
  : string * list JsVal :=
  let limit := default_arg limit (JNum 10) in
  let queryString :=
    nl +:+ "  SELECT reservations.id AS res_id," +:+
    nl +:+ "    properties.*," +:+
    nl +:+ "    reservations.start_date," +:+
    nl +:+ "    reservations.end_date," +:+
    nl +:+ "    AVG(rating) AS average_rating" +:+
    nl +:+ "  FROM reservations" +:+
    nl +:+ "    JOIN properties ON reservations.property_id = properties.id" +:+
    nl +:+ "    JOIN property_reviews ON properties.id = property_reviews.property_id" +:+
    nl +:+ "  WHERE reservations.guest_id = $1" +:+
    nl +:+ "  GROUP BY properties.id," +:+
    nl +:+ "    reservations.id" +:+
    nl +:+ "  ORDER BY reservations.start_date" +:+
    nl +:+ "  LIMIT $2;" +:+
    nl +:+ "  " in
  let values := [guest_id; limit] in
  (queryString, values).

Definition propertyValues : list string :=
  ["owner_id"; "title"; "description"; "thumbnail_photo_url"; "cover_photo_url";
   "cost_per_night"; "street"; "city"; "province"; "post_code"; "country";
   "parking_spaces"; "number_of_bathrooms"; "number_of_bedrooms"].

Definition addProperty_statement (property : gmap string JsVal)
  : string * list JsVal :=
  let queryString :=
    nl +:+ "  INSERT INTO properties(" +:+ join ", " propertyValues +:+ ")" +:+
    nl +:+ "  VALUES($1, $2, $3, $4, $5, $6, $7, $8, $9, $10, $11, $12, $13, $14)" +:+
    nl +:+ "  RETURNING *;" +:+
    nl +:+ "  " in
  let values := map (fun value => property !!! value) propertyValues in
  (queryString, values).

Section Service.
(** The pool is a capability: it runs a statement with its bound
    parameters on the database and settles with the rows or an error. *)
Context {Db Row : Type}.
Variable query : string -> list JsVal -> Db -> Db * Settled (list Row).

(** [pool.query(text, values)]; the result object's only field is [rows]. *)
Definition pool_query (statement : string * list JsVal) : Js Db (list Row) :=
  fun w =>
    let '(d, r) := query statement.1 statement.2 (db w) in
    (mkWorld d (console w), r).

(** [rows[0]] returned to the caller: [undefined] past the end. *)
Definition first_row (rows : list Row) : Value Row :=
  match rows with
  | [] => VUndefined
  | r :: _ => VRow r
  end.

Definition getUserWithEmail (email : JsVal) : Js Db (Value Row) :=
  (pool_query (getUserWithEmail_statement email))
    .then (fun rows =>
      match rows with
      | [] => throw (Error "Invalid email address")
      | r :: _ => ret (VRow r)
      end)
    .catch (fun err => console_log (message err) >> ret VNull).

Definition getUserWithId (id : JsVal) : Js Db (Value Row) :=
  (pool_query (getUserWithId_statement id))
    .then (fun rows =>
      match rows with
      | [] => throw (Error "Invalid user id")
      | r :: _ => ret (VRow r)
      end)
    .catch (fun err => console_log (message err) >> ret VNull).

Definition addUser (user : gmap string JsVal) : Js Db (Value Row) :=
  (pool_query (addUser_statement user))
    .then (fun rows => ret (first_row rows))
    .catch (fun err => console_log (message err) >> ret VNull).

Definition getAllReservations (guest_id limit : JsVal) : Js Db (Value Row) :=
  (pool_query (getAllReservations_statement guest_id limit))
    .then (fun rows => ret (VRows rows))
    .catch (fun err => console_log (message err) >> ret VNull).

(** The handler of [getAllProperties] has no [return]: it yields
    [undefined]. *)
Definition getAllProperties (options : gmap string JsVal) (limit : JsVal)
  : Js Db (Value Row) :=
  (pool_query (build_statement options limit))
    .then (fun rows => ret (VRows rows))
    .catch (fun err => console_log (message err) >> ret VUndefined).

Definition addProperty (property : gmap string JsVal) : Js Db (Value Row) :=
  (pool_query (addProperty_statement property))
    .then (fun rows => ret (first_row rows))
    .catch (fun err => console_log (message err) >> ret VNull).

(** What the caller sees when the pool rejects the statement [st]
    with the error [e]: the message is logged and the promise is
    fulfilled with [sentinel]. *)
Definition swallowed (op : Js Db (Value Row)) (st : string * list JsVal)
    (sentinel : Value Row) : Prop :=
  forall w d e,
    query st.1 st.2 (db w) = (d, Rejected e) ->
    op w = (mkWorld d (console w ++ [message e])%list, Fulfilled sentinel).

(** The promise of [op] is never rejected. *)
Definition never_rejects (op : Js Db (Value Row)) : Prop :=
  forall w, exists w' v, op w = (w', Fulfilled v).

End Service.

(** ** The database: tables and the meaning of the statements *)

(** The SQL text in [database.js] is part of the program.  Its meaning
    is given here on tables, as PostgreSQL gives it: the statements on
    [users] and the family of statements [getAllProperties] can build are
    read from their text, their parameters are bound from the values the
    driver sends, and they are run on lists of rows.  Integers are
    unbounded.  [query] is the pool of the operations above. *)

Module Pg.

(** *** Tables *)

Record User : Type := mkUser {
  user_id : Z;
  user_name : string;
  user_email : string;
  user_password : string
}.

Record Property : Type := mkProperty {
  id : Z;
  owner_id : Z;
  title : string;
  description : string;
  thumbnail_photo_url : string;
  cover_photo_url : string;
  cost_per_night : Z;
  street : string;
  city : string;
  province : string;
  post_code : string;
  country : string;
  parking_spaces : Z;
  number_of_bathrooms : Z;
  number_of_bedrooms : Z
}.

Record Review : Type := mkReview {
  property_id : Z;
  rating : Z
}.

(** Modelled from the spec: the schema is not part of [database.js];
    the columns are those of the specification's data model, [id] is
    the primary key of its table, the columns hold no NULL, and the
    email of a user is unique (enforced by the database).
    [users_id_seq] is the last identifier handed out for [users]. *)
Record Database : Type := mkDatabase {
  users : list User;
  users_id_seq : Z;
  properties : list Property;
  property_reviews : list Review
}.

(** A row of a result set: a user, or a property with the
    [average_rating] column computed by the search. *)
Inductive Row : Type :=
| RUser (u : User)
| RListing (p : Property) (average_rating : Q).

(** *** Errors *)

Inductive Res (A : Type) : Type :=
| Ok (a : A)
| Fail (e : JsError).
Arguments Ok {A} a.
Arguments Fail {A} e.

Definition res_bind {A B} (r : Res A) (f : A -> Res B) : Res B :=
  match r with
  | Ok a => f a
  | Fail e => Fail e
  end.

Fixpoint res_all {A B} (f : A -> Res B) (l : list A) : Res (list B) :=
  match l with
  | [] => Ok []
  | a :: l' =>
      res_bind (f a) (fun b => res_bind (res_all f l') (fun bs => Ok (b :: bs)))
  end.

Definition dq : string := String (ascii_of_nat 34) EmptyString.

Definition quoted (s : string) : string := dq +:+ s +:+ dq.

Definition syntax_error (near : list string) : JsError :=
  match near with
  | [] => Error "syntax error at end of input"
  | t :: _ => Error ("syntax error at or near " +:+ quoted t)
  end.

(** *** Tokens *)

Definition is_space (c : ascii) : bool :=
  (c =? " ")%char || (c =? ascii_of_nat 10)%char ||
  (c =? ascii_of_nat 9)%char || (c =? ascii_of_nat 13)%char.

Definition flush (cur : string) : list string :=
  match cur with
  | EmptyString => []
  | _ => [cur]
  end.

(** Tokens are separated by white space; the terminator [;] is a token
    of its own. *)
Fixpoint lex (cur : string) (s : string) : list string :=
  match s with
  | EmptyString => flush cur
  | String c s' =>
      if is_space c then (flush cur ++ lex "" s')%list
      else if (c =? ";")%char then (flush cur ++ ";" :: lex "" s')%list
      else lex (cur +:+ String c "") s'
  end.

Definition tokens (sql : string) : list string := lex "" sql.

(** [$k] with [k >= 1]. *)
Definition placeholder (t : string) : option nat :=
  match t with
  | String c ds =>
      if (c =? "$")%char then
        match Nat.of_uint <$> NilZero.uint_of_string ds with
        | Some (S k) => Some (S k)
        | _ => None
        end
      else None
  | EmptyString => None
  end.

(** *** Statements *)

Inductive Cond : Type :=
| OwnerIdEq (k : nat)      (* owner_id = $k *)
| CityLike (k : nat)       (* city LIKE $k *)
| CostAbove (k : nat)      (* cost_per_night / 100 > $k *)
| CostBelow (k : nat).     (* cost_per_night / 100 < $k *)

Inductive Statement : Type :=
| SelectUserByEmail
| SelectUserById
| InsertUser
| SelectListings (conds : list Cond) (having : option nat) (limit : nat).

(** [expect pre ts]: the tokens [pre] are next, in this order. *)
Fixpoint expect (pre ts : list string) : Res (list string) :=
  match pre with
  | [] => Ok ts
  | p :: pre' =>
      match ts with
      | t :: ts' => if (p =? t)%string then expect pre' ts' else Fail (syntax_error ts)
      | [] => Fail (syntax_error ts)
      end
  end.

Definition expect_param (ts : list string) : Res (nat * list string) :=
  match ts with
  | t :: ts' =>
      match placeholder t with
      | Some k => Ok (k, ts')
      | None => Fail (syntax_error ts)
      end
  | [] => Fail (syntax_error ts)
  end.

Definition starts_with (pre ts : list string) : bool :=
  match expect pre ts with
  | Ok _ => true
  | Fail _ => false
  end.

(** One comparison of the WHERE clause. *)
Definition parse_cond (ts : list string) : Res (Cond * list string) :=
  if starts_with ["owner_id"; "="] ts then
    res_bind (expect_param (drop 2 ts)) (fun '(k, r) => Ok (OwnerIdEq k, r))
  else if starts_with ["city"; "LIKE"] ts then
    res_bind (expect_param (drop 2 ts)) (fun '(k, r) => Ok (CityLike k, r))
  else if starts_with ["cost_per_night"; "/"; "100"; ">"] ts then
    res_bind (expect_param (drop 4 ts)) (fun '(k, r) => Ok (CostAbove k, r))
  else if starts_with ["cost_per_night"; "/"; "100"; "<"] ts then
    res_bind (expect_param (drop 4 ts)) (fun '(k, r) => Ok (CostBelow k, r))
  else Fail (syntax_error ts).

(** [AND cond AND cond ...]; the fuel bounds the number of conditions
    by the number of tokens. *)
Fixpoint parse_ands (fuel : nat) (ts : list string) : Res (list Cond * list string) :=
  match fuel with
  | O => Ok ([], ts)
  | S fuel' =>
      match ts with
      | t :: ts' =>
          if (t =? "AND")%string then
            res_bind (parse_cond ts') (fun '(c, r) =>
            res_bind (parse_ands fuel' r) (fun '(cs, r') => Ok (c :: cs, r')))
          else Ok ([], ts)
      | [] => Ok ([], ts)
      end
  end.

(** An optional [WHERE cond AND cond ...]. *)
Definition parse_where (ts : list string) : Res (list Cond * list string) :=
  match ts with
  | t :: ts' =>
      if (t =? "WHERE")%string then
        res_bind (parse_cond ts') (fun '(c, r) =>
        res_bind (parse_ands (length r) r) (fun '(cs, r') => Ok (c :: cs, r')))
      else Ok ([], ts)
  | [] => Ok ([], ts)
  end.

(** An optional [HAVING AVG(property_reviews.rating) >= $k]. *)
Definition parse_having (ts : list string) : Res (option nat * list string) :=
  match ts with
  | t :: ts' =>
      if (t =? "HAVING")%string then
        res_bind (expect ["AVG(property_reviews.rating)"; ">="] ts') (fun r =>
        res_bind (expect_param r) (fun '(k, r') => Ok (Some k, r')))
      else Ok (None, ts)
  | [] => Ok (None, ts)
  end.

Definition search_head : list string :=
  ["SELECT"; "properties.*,"; "AVG(property_reviews.rating)"; "AS"; "average_rating";
   "FROM"; "properties";
   "JOIN"; "property_reviews"; "ON"; "properties.id"; "="; "property_id"].

Definition parse_search (ts : list string) : Res Statement :=
  res_bind (parse_where ts) (fun '(conds, r1) =>
  res_bind (expect ["GROUP"; "BY"; "properties.id"] r1) (fun r2 =>
  res_bind (parse_having r2) (fun '(having, r3) =>
  res_bind (expect ["ORDER"; "BY"; "cost_per_night"; "LIMIT"] r3) (fun r4 =>
  res_bind (expect_param r4) (fun '(limit, r5) =>
  match r5 with
  | [] => Ok (SelectListings conds having limit)
  | t :: r6 =>
      if (t =? ";")%string then
        match r6 with
        | [] => Ok (SelectListings conds having limit)
        | _ :: _ => Fail (syntax_error r6)
        end
      else Fail (syntax_error r5)
  end))))).

Definition list_eqb (a b : list string) : bool := bool_decide (a = b).

(** The statements of [database.js] on [users] and the family built by
    [getAllProperties]; other text is outside this model of the
    database and is reported as such. *)
Definition parse (sql : string) : Res Statement :=
  let ts := tokens sql in
  if list_eqb ts ["SELECT"; "id,"; "name,"; "email,"; "password";
                  "FROM"; "users"; "WHERE"; "email"; "="; "$1"; ";"]
  then Ok SelectUserByEmail
  else if list_eqb ts ["SELECT"; "id,"; "name,"; "email,"; "password";
                       "FROM"; "users"; "WHERE"; "id"; "="; "$1"; ";"]
  then Ok SelectUserById
  else if list_eqb ts ["INSERT"; "INTO"; "users(name,"; "password,"; "email)";
                       "VALUES($1,"; "$2,"; "$3)"; "RETURNING"; "*"; ";"]
  then Ok InsertUser
  else if starts_with search_head ts
  then parse_search (drop (length search_head) ts)
  else Fail (Error "statement outside the modelled fragment").

(** *** Bound parameters *)

(** What the driver sends for a JavaScript value: NULL for [null] and
    [undefined], the text of the value otherwise. *)
Definition prepare (v : JsVal) : option string :=
  match v with
  | JUndefined | JNull => None
  | _ => Some (to_string v)
  end.

(** The text of parameter [$k], or NULL. *)
Definition param (params : list JsVal) (k : nat) : Res (option string) :=
  match params !! (k - 1)%nat with
  | Some v => Ok (prepare v)
  | None => Fail (Error ("there is no parameter $" +:+ dec (Z.of_nat k)))
  end.

(** Integer input in its plain form: an optional minus sign and decimal
    digits.  The database also reads surrounding blanks and a leading
    plus sign, and refuses a value outside the range of the column's
    type; neither is modelled, so a text read here is read by the
    database as the same integer when that integer is in range ([int4],
    [bigint_max] below), and a theorem that needs the database to
    accept a value says so in a hypothesis. *)
Definition int_of_text (s : string) : Res Z :=
  match NilZero.int_of_string s with
  | Some d => Ok (Z.of_int d)
  | None => Fail (Error ("invalid input syntax for type integer: " +:+ quoted s))
  end.

Fixpoint split_dot (s : string) : string * option string :=
  match s with
  | EmptyString => (EmptyString, None)
  | String c s' =>
      if (c =? ".")%char then (EmptyString, Some s')
      else let '(a, b) := split_dot s' in (String c a, b)
  end.

Definition is_negative (s : string) : bool :=
  match s with
  | String c _ => (c =? "-")%char
  | EmptyString => false
  end.

(** Numeric input in its plain form: an optional minus sign, decimal
    digits and an optional fraction.  The database reads more forms (a
    leading plus sign or dot, an exponent, blanks, NaN); a text read here
    is read by the database as the same number. *)
Definition numeric_of_text (s : string) : Res Q :=
  let bad := Fail (Error ("invalid input syntax for type numeric: " +:+ quoted s)) in
  let '(ip, fp) := split_dot s in
  match NilZero.int_of_string ip with
  | None => bad
  | Some d =>
      match fp with
      | None => Ok (inject_Z (Z.of_int d))
      | Some f =>
          match NilEmpty.uint_of_string f with
          | None => bad
          | Some fd =>
              let scale := 10 ^ Z.of_nat (String.length f) in
              let mag := Z.abs (Z.of_int d) * scale + Z.of_uint fd in
              Ok (Qmake (if is_negative ip then - mag else mag) (Z.to_pos scale))
          end
      end
  end.

Definition int_param (params : list JsVal) (k : nat) : Res (option Z) :=
  res_bind (param params k) (fun t =>
    match t with
    | None => Ok None
    | Some s => res_bind (int_of_text s) (fun z => Ok (Some z))
    end).

Definition numeric_param (params : list JsVal) (k : nat) : Res (option Q) :=
  res_bind (param params k) (fun t =>
    match t with
    | None => Ok None
    | Some s => res_bind (numeric_of_text s) (fun q => Ok (Some q))
    end).

(** *** LIKE *)

(** [s LIKE p]: [%] stands for any run of characters, [_] for any one
    character, a backslash takes the next character literally, every
    other character stands for itself.  A character is a byte of the
    text here; with a multi-byte encoding [_] differs from the
    database's, which is why the properties below are about patterns
    without [_]. *)
Fixpoint like (p s : string) {struct p} : bool :=
  match p with
  | EmptyString => match s with EmptyString => true | String _ _ => false end
  | String c p' =>
      if (c =? "%")%char then
        (fix any (s : string) : bool :=
           like p' s || match s with
                        | EmptyString => false
                        | String _ s' => any s'
                        end) s
      else if (c =? "_")%char then
        match s with
        | EmptyString => false
        | String _ s' => like p' s'
        end
      else if (c =? "\")%char then
        match p' with
        | EmptyString => false
        | String e p'' =>
            match s with
            | EmptyString => false
            | String d s' => (e =? d)%char && like p'' s'
            end
        end
      else
        match s with
        | EmptyString => false
        | String d s' => (c =? d)%char && like p' s'
        end
  end.

(** A pattern may not end in the middle of an escape. *)
Fixpoint like_pattern_ok (p : string) : bool :=
  match p with
  | EmptyString => true
  | String c p' =>
      if (c =? "\")%char then
        match p' with
        | EmptyString => false
        | String _ p'' => like_pattern_ok p''
        end
      else like_pattern_ok p'
  end.

(** *** The search *)

(** A comparison with its parameter bound; a comparison with NULL
    holds of no row. *)
Definition cond_pred (params : list JsVal) (c : Cond) : Res (Property -> bool) :=
  match c with
  | OwnerIdEq k =>
      res_bind (int_param params k) (fun v =>
        Ok (fun p => match v with Some z => owner_id p =? z | None => false end))
  | CityLike k =>
      res_bind (param params k) (fun v =>
        match v with
        | Some pat =>
            if like_pattern_ok pat then Ok (fun p => like pat (city p))
            else Fail (Error "LIKE pattern must not end with escape character")
        | None => Ok (fun _ => false)
        end)
  | CostAbove k =>
      res_bind (int_param params k) (fun v =>
        Ok (fun p => match v with
                     | Some z => z <? cost_per_night p ÷ 100
                     | None => false
                     end))
  | CostBelow k =>
      res_bind (int_param params k) (fun v =>
        Ok (fun p => match v with
                     | Some z => cost_per_night p ÷ 100 <? z
                     | None => false
                     end))
  end.

Definition having_pred (params : list JsVal) (having : option nat)
  : Res (Q -> bool) :=
  match having with
  | None => Ok (fun _ => true)
  | Some k =>
      res_bind (numeric_param params k) (fun v =>
        Ok (fun avg => match v with Some q => Qle_bool q avg | None => false end))
  end.

(** LIMIT: NULL is no limit, a negative count is refused.  The count is
    a bigint for the database, which refuses one past [bigint_max]; that
    refusal is not modelled, and the properties that say a list is
    returned take the limit up to [bigint_max]. *)
Definition limit_count (params : list JsVal) (k : nat) : Res (option nat) :=
  res_bind (int_param params k) (fun v =>
    match v with
    | None => Ok None
    | Some z =>
        if z <? 0 then Fail (Error "LIMIT must not be negative")
        else Ok (Some (Z.to_nat z))
    end).

Definition ratings_of (d : Database) (p : Property) : list Z :=
  map rating (filter (fun r => property_id r = id p) (property_reviews d)).

Definition sum_Z (l : list Z) : Z := fold_right Z.add 0 l.

(** AVG over a group that is not empty, as the exact mean.  The
    database reports it as a numeric rounded to sixteen decimals; that
    rounding is not modelled. *)
Definition average (l : list Z) : Q := Qmake (sum_Z l) (Pos.of_nat (length l)).

(** FROM properties JOIN property_reviews ... GROUP BY properties.id:
    one group per property that has a review. *)
Definition listing (d : Database) (p : Property) : option (Property * Q) :=
  match ratings_of d p with
  | [] => None
  | rs => Some (p, average rs)
  end.

(** ORDER BY cost_per_night, ascending. *)
Fixpoint insert_by_cost (x : Property * Q) (l : list (Property * Q))
  : list (Property * Q) :=
  match l with
  | [] => [x]
  | y :: l' =>
      if cost_per_night x.1 <=? cost_per_night y.1 then x :: y :: l'
      else y :: insert_by_cost x l'
  end.

Definition order_by_cost (l : list (Property * Q)) : list (Property * Q) :=
  fold_right insert_by_cost [] l.

Definition take_limit {A} (n : option nat) (l : list A) : list A :=
  match n with
  | None => l
  | Some k => take k l
  end.

Definition holds_all (ps : list (Property -> bool)) (p : Property) : bool :=
  forallb (fun f => f p) ps.

Definition run_search (d : Database) (params : list JsVal)
    (conds : list Cond) (having : option nat) (limit : nat) : Res (list Row) :=
  res_bind (res_all (cond_pred params) conds) (fun wh =>
  res_bind (having_pred params having) (fun hv =>
  res_bind (limit_count params limit) (fun n =>
    let joined := omap (listing d) (filter (fun p => holds_all wh p) (properties d)) in
    let kept := filter (fun g => hv g.2) joined in
    Ok (map (fun g => RListing g.1 g.2) (take_limit n (order_by_cost kept)))))).

(** *** The statements on users *)

Definition run_select_user_by_email (d : Database) (params : list JsVal)
  : Res (list Row) :=
  res_bind (param params 1) (fun v =>
    match v with
    | None => Ok []
    | Some e => Ok (map RUser (filter (fun u => user_email u = e) (users d)))
    end).

Definition run_select_user_by_id (d : Database) (params : list JsVal)
  : Res (list Row) :=
  res_bind (int_param params 1) (fun v =>
    match v with
    | None => Ok []
    | Some i => Ok (map RUser (filter (fun u => user_id u = i) (users d)))
    end).

Definition not_null (column : string) (v : option string) : Res string :=
  match v with
  | Some s => Ok s
  | None =>
      Fail (Error ("null value in column " +:+ quoted column +:+
                   " violates not-null constraint"))
  end.

(** INSERT INTO users ... RETURNING *: the identifier is drawn first,
    then the row is checked and stored.  The checks are those of the
    data model above (no NULL, unique email); the identifier is taken to
    be new, as it is when every stored identifier came from the sequence
    ([ids_in_sequence] below), and lengths of texts are not limited. *)
Definition run_insert_user (d : Database) (params : list JsVal)
  : Database * Res (list Row) :=
  let new_id := users_id_seq d + 1 in
  let d' := mkDatabase (users d) new_id (properties d) (property_reviews d) in
  let checked :=
    res_bind (param params 1) (fun n =>
    res_bind (param params 2) (fun p =>
    res_bind (param params 3) (fun e =>
    res_bind (not_null "name" n) (fun name =>
    res_bind (not_null "password" p) (fun password =>
    res_bind (not_null "email" e) (fun email =>
      if bool_decide (email ∈ map user_email (users d)) then
        Fail (Error ("duplicate key value violates unique constraint " +:+
                     quoted "users_email_key"))
      else Ok (mkUser new_id name email password))))))) in
  match checked with
  | Ok u =>
      (mkDatabase (users d ++ [u])%list new_id (properties d) (property_reviews d),
       Ok [RUser u])
  | Fail e => (d', Fail e)
  end.

(** *** The pool *)

Definition cond_index (c : Cond) : nat :=
  match c with
  | OwnerIdEq k | CityLike k | CostAbove k | CostBelow k => k
  end.

(** The number of parameters a statement takes: its highest [$k]. *)
Definition arity (st : Statement) : nat :=
  match st with
  | SelectUserByEmail | SelectUserById => 1
  | InsertUser => 3
  | SelectListings conds having limit =>
      fold_right Nat.max (Nat.max (default 0%nat having) limit) (map cond_index conds)
  end.

Definition settle {A} (r : Res A) : Settled A :=
  match r with
  | Ok a => Fulfilled a
  | Fail e => Rejected e
  end.

(** [pool.query(text, values)] against the database [d]. *)
Definition query (text : string) (values : list JsVal) (d : Database)
  : Database * Settled (list Row) :=
  match parse text with
  | Fail e => (d, Rejected e)
  | Ok st =>
      if negb (length values =? arity st)%nat then
        (d, Rejected (Error ("bind message supplies " +:+ len values +:+
                             " parameters, but prepared statement requires " +:+
                             dec (Z.of_nat (arity st)))))
      else
        match st with
        | SelectUserByEmail => (d, settle (run_select_user_by_email d values))
        | SelectUserById => (d, settle (run_select_user_by_id d values))
        | InsertUser => let '(d', r) := run_insert_user d values in (d', settle r)
        | SelectListings conds having limit => (d, settle (run_search d values conds having limit))
        end
  end.

End Pg.

(** ** Reading a statement's text *)

(** How many times [needle] occurs in [hay]. *)
Fixpoint occurrences (needle hay : string) : nat :=
  match hay with
  | EmptyString => 0
  | String _ hay' =>
      ((if String.prefix needle hay then 1 else 0) + occurrences needle hay')%nat
  end.

Definition contains (needle hay : string) : bool := (0 <? occurrences needle hay)%nat.

Definition is_digit (c : ascii) : bool :=
  (48 <=? nat_of_ascii c)%nat && (nat_of_ascii c <=? 57)%nat.

Fixpoint leading_digits (s : string) : string :=
  match s with
  | EmptyString => EmptyString
  | String c s' => if is_digit c then String c (leading_digits s') else EmptyString
  end.

(** The positional placeholders [$k] of a statement, left to right. *)
Fixpoint placeholders (sql : string) : list nat :=
  match sql with
  | EmptyString => []
  | String c sql' =>
      if (c =? "$")%char then
        match NilZero.uint_of_string (leading_digits sql') with
        | Some u => Nat.of_uint u :: placeholders sql'
        | None => placeholders sql'
        end
      else placeholders sql'
  end.

(** The five filters of [getAllProperties], in the order the code tests
    them, with the key each reads, the value it binds and the text it
    adds around its placeholder. *)
Inductive Filter : Type :=
| FOwnerId
| FCity
| FMinimumPrice
| FMaximumPrice
| FMinimumRating.

Definition filter_order : list Filter :=
  [FOwnerId; FCity; FMinimumPrice; FMaximumPrice; FMinimumRating].

Definition key (f : Filter) : string :=
  match f with
  | FOwnerId => "owner_id"
  | FCity => "city"
  | FMinimumPrice => "minimum_price_per_night"
  | FMaximumPrice => "maximum_price_per_night"
  | FMinimumRating => "minimum_rating"
  end.

Definition filter_keys : list string := map key filter_order.

Definition bound (options : gmap string JsVal) (f : Filter) : JsVal :=
  let text := to_string (options !!! key f) in
  match f with
  | FCity => JStr ("%" +:+ text +:+ "%")
  | _ => JStr text
  end.

Definition clause (f : Filter) (i : nat) : string :=
  match f with
  | FOwnerId => "owner_id = $" +:+ dec (Z.of_nat i) +:+ " "
  | FCity => "city LIKE $" +:+ dec (Z.of_nat i) +:+ " "
  | FMinimumPrice => "cost_per_night / 100 > $" +:+ dec (Z.of_nat i) +:+ " "
  | FMaximumPrice => "cost_per_night / 100 < $" +:+ dec (Z.of_nat i) +:+ nl
  | FMinimumRating => "HAVING AVG(property_reviews.rating) >= $" +:+ dec (Z.of_nat i) +:+ " "
  end.

Definition limit_clause (i : nat) : string := "LIMIT $" +:+ dec (Z.of_nat i) +:+ ";".

(** The filters whose option passes the test [if (options.key)]. *)
Definition present (options : gmap string JsVal) : list Filter :=
  List.filter (fun f => truthy (options !!! key f)) filter_order.

(** The clause of each present filter, numbered by its place among the
    present ones, then the LIMIT clause. *)
Definition clauses (options : gmap string JsVal) : list string :=
  (imap (fun i f => clause f (S i)) (present options)
   ++ [limit_clause (S (length (present options)))])%list.

(** The statement when no filter is present. *)
Definition unfiltered_sql : string :=
  nl +:+ "  SELECT properties.*, AVG(property_reviews.rating) AS average_rating" +:+
  nl +:+ "  FROM properties" +:+
  nl +:+ "    JOIN property_reviews ON properties.id = property_id" +:+
  nl +:+ "  GROUP BY properties.id " +:+
  nl +:+ "  ORDER BY cost_per_night" +:+
  nl +:+ "  LIMIT $1;" +:+
  nl +:+ "  ".

(** ** Sample inputs *)

(** A listing opened from 'My Listings' and narrowed to one city. *)
Definition owner_and_city : gmap string JsVal :=
  <["owner_id" := JNum 1]> (<["city" := JStr "Vancouver"]> ∅).

(** An options object whose only entry is falsy. *)
Definition owner_zero : gmap string JsVal := <["owner_id" := JNum 0]> ∅.

(** A small database: one user and four properties, one of them
    without a review. *)
Definition sample_property (i owner cost : Z) (c : string) : Pg.Property :=
  Pg.mkProperty i owner "Cosy flat" "" "" "" cost "1 Main St" c "BC" "V5K" "Canada" 1 1 2.

Definition sample_db : Pg.Database :=
  Pg.mkDatabase
    [Pg.mkUser 1 "Ann" "ann@example.com" "secret"] 1
    [sample_property 1 1 25000 "Vancouver"; sample_property 2 1 10050 "vancouver";
     sample_property 3 2 15000 "Toronto"; sample_property 4 2 9000 "Vancouver"]
    [Pg.mkReview 1 5; Pg.mkReview 1 4; Pg.mkReview 2 3; Pg.mkReview 3 4].

Definition new_user : gmap string JsVal :=
  <["name" := JStr "Bob"]> (<["password" := JStr "hunter2"]>
    (<["email" := JStr "bob@example.com"]> ∅)).

Definition price_range : gmap string JsVal :=
  <["minimum_price_per_night" := JStr "100"]>
    (<["maximum_price_per_night" := JStr "200"]> ∅).

(** An options object with the city filter alone. *)
Definition city_option (v : JsVal) : gmap string JsVal := <["city" := v]> ∅.

(** A database whose only property, reviewed once, is in the city [c]. *)
Definition one_city_db (c : string) : Pg.Database :=
  Pg.mkDatabase [] 0 [sample_property 1 1 12000 c] [Pg.mkReview 1 5].

(** ** Reading a result *)

(** The order of ORDER BY cost_per_night on the groups of a search. *)
Definition cost_le (a b : Pg.Property * Q) : Prop :=
  Pg.cost_per_night a.1 <= Pg.cost_per_night b.1.

Definition row_cost (r : Pg.Row) : Z :=
  match r with
  | Pg.RListing p _ => Pg.cost_per_night p
  | Pg.RUser _ => 0
  end.

Definition is_listing (r : Pg.Row) : Prop :=
  match r with
  | Pg.RListing _ _ => True
  | Pg.RUser _ => False
  end.

(** Letter case: [lower] maps A-Z to a-z, so two texts differ only in
    letter case when [lower] makes them equal. *)
Definition lower_ascii (c : ascii) : ascii :=
  let n := nat_of_ascii c in
  if ((65 <=? n) && (n <=? 90))%nat then ascii_of_nat (n + 32) else c.

Fixpoint lower (s : string) : string :=
  match s with
  | EmptyString => EmptyString
  | String c s' => String (lower_ascii c) (lower s')
  end.

(** A text that LIKE reads literally: none of [%], [_] and backslash. *)
Definition plain_char (c : ascii) : bool :=
  negb ((c =? "%")%char || (c =? "_")%char || (c =? "\")%char).

Fixpoint plain (s : string) : bool :=
  match s with
  | EmptyString => true
  | String c s' => plain_char c && plain s'
  end.

(** Whether the search with the city filter [v] alone returns the
    property of [one_city_db c]. *)
Definition city_filter_accepts (v : JsVal) (c : string) : bool :=
  match (getAllProperties Pg.query (city_option v) JUndefined
           (mkWorld (one_city_db c) [])).2 with
  | Fulfilled (VRows (_ :: _)) => true
  | _ => false
  end.

(** The statement when the city filter alone is present. *)
Definition city_sql : string :=
  nl +:+ "  SELECT properties.*, AVG(property_reviews.rating) AS average_rating" +:+
  nl +:+ "  FROM properties" +:+
  nl +:+ "    JOIN property_reviews ON properties.id = property_id" +:+
  nl +:+ "  WHERE city LIKE $1 GROUP BY properties.id " +:+
  nl +:+ "  ORDER BY cost_per_night" +:+
  nl +:+ "  LIMIT $2;" +:+
  nl +:+ "  ".

(** ** Tactics *)

(** Case analysis on which of the five options pass their test; what is
    left of each option is the text it binds. *)
Ltac by_filters options limit :=
  unfold build_statement, clauses; unfold present, filter_order;
  cbn [List.filter key];
  generalize (default_arg limit (JNum 10)); intros l;
  destruct (truthy (options !!! "owner_id")), (truthy (options !!! "city")),
           (truthy (options !!! "minimum_price_per_night")),
           (truthy (options !!! "maximum_price_per_night")),
           (truthy (options !!! "minimum_rating"));
  cbn [map bound key imap length app];
  generalize (to_string (options !!! "owner_id")) (to_string (options !!! "city"))
             (to_string (options !!! "minimum_price_per_night"))
             (to_string (options !!! "maximum_price_per_night"))
             (to_string (options !!! "minimum_rating"));
  intros s1 s2 s3 s4 s5.

(** ** What the text and the handlers are expected to show *)

(** Whether [options.owner_id] comes with another condition of the WHERE
    clause. *)
Definition owner_with_condition (options : gmap string JsVal) : bool :=
  truthy (options !!! "owner_id") &&
  (truthy (options !!! "city") ||
   truthy (options !!! "minimum_price_per_night") ||
   truthy (options !!! "maximum_price_per_night")).

(** Whether any condition of the WHERE clause is present. *)
Definition any_condition (options : gmap string JsVal) : bool :=
  truthy (options !!! "owner_id") ||
  truthy (options !!! "city") ||
  truthy (options !!! "minimum_price_per_night") ||
  truthy (options !!! "maximum_price_per_night").

Definition accepted {A} (r : Pg.Res A) : bool :=
  match r with
  | Pg.Ok _ => true
  | Pg.Fail _ => false
  end.

(** Options as a request's query string gives them: filters and a field
    the search does not know. *)
Definition search_form : gmap string JsVal :=
  <["city" := JStr "Vancouver"]> (<["minimum_rating" := JStr "4"]> ∅).

(** A property form that fills three of the fourteen fields. *)
Definition short_listing : gmap string JsVal :=
  <["owner_id" := JNum 1]> (<["title" := JStr "Loft"]> (<["cost_per_night" := JNum 9900]> ∅)).

(** The result and the effects of one call [op] that hands the
    statement [st] to the pool: the database is left as that one query
    leaves it; nothing is logged unless the promise is fulfilled with
    [sentinel], and then one line is added after those already there. *)
Definition one_query_one_line {Db Row : Type}
    (query : string -> list JsVal -> Db -> Db * Settled (list Row))
    (op : Js Db (Value Row)) (st : string * list JsVal) (sentinel : Value Row) : Prop :=
  forall w,
    exists v,
      (op w).2 = Fulfilled v /\
      db (op w).1 = (query st.1 st.2 (db w)).1 /\
      (console (op w).1 = console w \/
       (v = sentinel /\ exists line, console (op w).1 = (console w ++ [line])%list)).

Definition is_row {Row} (v : Value Row) : Prop :=
  match v with
  | VRow _ => True
  | _ => False
  end.

Definition is_rows {Row} (v : Value Row) : Prop :=
  match v with
  | VRows _ => True
  | _ => False
  end.


(** The identifiers of [users] are distinct and none is past the last
    one the sequence handed out: what the database keeps for a primary
    key drawn from a sequence. *)
Definition ids_in_sequence (d : Pg.Database) : Prop :=
  NoDup (map Pg.user_id (Pg.users d)) /\
  Forall (fun u => Pg.user_id u <= Pg.users_id_seq d) (Pg.users d).

(** A sign-up form with no password. *)
Definition no_password : gmap string JsVal :=
  <["name" := JStr "Eve"]> (<["email" := JStr "eve@example.com"]> ∅).

(** The owner's own listings, as 'My Listings' asks for them. *)
Definition my_listings : gmap string JsVal := <["owner_id" := JNum 1]> ∅.

Definition well_rated : gmap string JsVal := <["minimum_rating" := JStr "4.5"]> ∅.

(** The groups of a list of rows of a search. *)
Definition row_group (r : Pg.Row) : option (Pg.Property * Q) :=
  match r with
  | Pg.RListing p avg => Some (p, avg)
  | Pg.RUser _ => None
  end.

(** ** Reservations *)

(** The statement of [getAllReservations] reads a fourth table.  The
    database of [Pg] is extended with it here, and its pool with that
    statement; every other statement goes to [Pg.query] on the tables it
    knows. *)

Module Bookings.

(** Modelled from the spec: the schema is not part of [database.js];
    the columns of a reservation are those of the specification's data
    model, [id] is the primary key, and the columns hold no NULL.  A date
    is the number of its day, so that dates are ordered as integers
    are. *)
Record Reservation : Type := mkReservation {
  reservation_id : Z;
  guest_id : Z;
  property_id : Z;
  start_date : Z;
  end_date : Z
}.

Record Database : Type := mkDatabase {
  listings : Pg.Database;
  reservations : list Reservation
}.

(** One group of the statement: a reservation, the property it is
    joined with, and the average of the ratings of that property. *)
Record Stay : Type := mkStay {
  stay_reservation : Reservation;
  stay_property : Pg.Property;
  stay_rating : Q
}.

(** A row of a result set: a row of [Pg], or the columns the statement
    of [getAllReservations] selects: res_id, properties.*, start_date,
    end_date, average_rating. *)
Inductive Row : Type :=
| RPlain (r : Pg.Row)
| RReservation (res_id : Z) (p : Pg.Property) (start_date end_date : Z)
               (average_rating : Q).

Definition row_of_stay (s : Stay) : Row :=
  RReservation (reservation_id (stay_reservation s)) (stay_property s)
    (start_date (stay_reservation s)) (end_date (stay_reservation s)) (stay_rating s).

Definition statement_tokens : list string :=
  ["SELECT"; "reservations.id"; "AS"; "res_id,";
   "properties.*,";
   "reservations.start_date,";
   "reservations.end_date,";
   "AVG(rating)"; "AS"; "average_rating";
   "FROM"; "reservations";
   "JOIN"; "properties"; "ON"; "reservations.property_id"; "="; "properties.id";
   "JOIN"; "property_reviews"; "ON"; "properties.id"; "="; "property_reviews.property_id";
   "WHERE"; "reservations.guest_id"; "="; "$1";
   "GROUP"; "BY"; "properties.id,";
   "reservations.id";
   "ORDER"; "BY"; "reservations.start_date";
   "LIMIT"; "$2"; ";"].

(** reservations JOIN properties JOIN property_reviews, GROUP BY
    properties.id, reservations.id: for a reservation, one group per
    property with its id that has a review. *)
Definition stays_of (d : Database) (r : Reservation) : list Stay :=
  omap (fun p =>
          if bool_decide (property_id r = Pg.id p) then
            match Pg.ratings_of (listings d) p with
            | [] => None
            | rs => Some (mkStay r p (Pg.average rs))
            end
          else None)
       (Pg.properties (listings d)).

(** ORDER BY reservations.start_date, ascending. *)
Fixpoint insert_by_start (x : Stay) (l : list Stay) : list Stay :=
  match l with
  | [] => [x]
  | y :: l' =>
      if start_date (stay_reservation x) <=? start_date (stay_reservation y)
      then x :: y :: l'
      else y :: insert_by_start x l'
  end.

Definition order_by_start (l : list Stay) : list Stay :=
  fold_right insert_by_start [] l.

Definition run_reservations (d : Database) (params : list JsVal) : Pg.Res (list Row) :=
  Pg.res_bind (Pg.int_param params 1) (fun guest =>
  Pg.res_bind (Pg.limit_count params 2) (fun n =>
    let mine :=
      match guest with
      | Some g => filter (fun r => guest_id r = g) (reservations d)
      | None => []
      end in
    Pg.Ok (map row_of_stay
             (Pg.take_limit n (order_by_start (mine ≫= stays_of d)))))).

(** [pool.query(text, values)] against the extended database. *)
Definition query (text : string) (values : list JsVal) (d : Database)
  : Database * Settled (list Row) :=
  if bool_decide (Pg.tokens text = statement_tokens) then
    if negb (length values =? 2)%nat then
      (d, Rejected (Error ("bind message supplies " +:+ len values +:+
                           " parameters, but prepared statement requires 2")))
    else (d, Pg.settle (run_reservations d values))
  else
    let '(b, r) := Pg.query text values (listings d) in
    (mkDatabase b (reservations d),
     match r with
     | Fulfilled rows => Fulfilled (map RPlain rows)
     | Rejected e => Rejected e
     end).

End Bookings.

Definition start_le (a b : Bookings.Stay) : Prop :=
  Bookings.start_date (Bookings.stay_reservation a)
  <= Bookings.start_date (Bookings.stay_reservation b).

(** The tables of [sample_db] with three reservations of guest 1, the
    last one of a property without a review, one of guest 2, and one of
    guest 3, again of the property without a review. *)
Definition sample_bookings : Bookings.Database :=
  Bookings.mkDatabase sample_db
    [Bookings.mkReservation 1 1 3 19800 19803;
     Bookings.mkReservation 2 2 1 19700 19705;
     Bookings.mkReservation 3 1 1 19750 19752;
     Bookings.mkReservation 4 1 4 19600 19601;
     Bookings.mkReservation 5 3 4 19900 19901].

(** ** Ranges and texts the database is sure about *)

(** The ranges of the column types integer and bigint.  [Pg] does not
    bound integers: a theorem that says the database accepts an integer
    carries the range of its type as a hypothesis. *)
Definition int4 (z : Z) : Prop := -2147483648 <= z <= 2147483647.

Definition bigint_max : Z := 9223372036854775807.

(** A text that cannot be the start of a number: it is empty, or its
    first character is neither a blank, nor a sign, nor a digit.  Integer
    input refuses every such text. *)
Definition starts_like_number (s : string) : bool :=
  match s with
  | EmptyString => false
  | String c _ =>
      is_digit c || (c =? "-")%char || (c =? "+")%char || (c =? " ")%char ||
      ((9 <=? nat_of_ascii c)%nat && (nat_of_ascii c <=? 13)%nat)
  end.

(** The reservation and the property of a group, without its rating. *)
Definition stay_pair (st : Bookings.Stay) : Bookings.Reservation * Pg.Property :=
  (Bookings.stay_reservation st, Bookings.stay_property st).

(** What a call does, given what the pool answers to its one statement
    [st].  A lookup: on an error, the message logged and [null]; on no
    row, the line [missing] logged and [null]; else the first row and
    nothing logged. *)
Definition lookup_outcome {Db Row : Type}
    (query : string -> list JsVal -> Db -> Db * Settled (list Row))
    (op : Js Db (Value Row)) (st : string * list JsVal) (missing : string) : Prop :=
  forall w,
    op w =
    match query st.1 st.2 (db w) with
    | (d, Rejected e) => (mkWorld d (console w ++ [message e])%list, Fulfilled VNull)
    | (d, Fulfilled []) => (mkWorld d (console w ++ [missing])%list, Fulfilled VNull)
    | (d, Fulfilled (r :: _)) => (mkWorld d (console w), Fulfilled (VRow r))
    end.

(** An insert: on an error, the message logged and [null]; else the
    first row, or [undefined] when there is none, and nothing logged. *)
Definition insert_outcome {Db Row : Type}
    (query : string -> list JsVal -> Db -> Db * Settled (list Row))
    (op : Js Db (Value Row)) (st : string * list JsVal) : Prop :=
  forall w,
    op w =
    match query st.1 st.2 (db w) with
    | (d, Rejected e) => (mkWorld d (console w ++ [message e])%list, Fulfilled VNull)
    | (d, Fulfilled []) => (mkWorld d (console w), Fulfilled VUndefined)
    | (d, Fulfilled (r :: _)) => (mkWorld d (console w), Fulfilled (VRow r))
    end.

(** A search: on an error, the message logged and [sentinel]; else the
    rows and nothing logged. *)
Definition search_outcome {Db Row : Type}
    (query : string -> list JsVal -> Db -> Db * Settled (list Row))
    (op : Js Db (Value Row)) (st : string * list JsVal) (sentinel : Value Row) : Prop :=
  forall w,
    op w =
    match query st.1 st.2 (db w) with
    | (d, Rejected e) => (mkWorld d (console w ++ [message e])%list, Fulfilled sentinel)
    | (d, Fulfilled rows) => (mkWorld d (console w), Fulfilled (VRows rows))
    end.

(** * Properties *)

(** ** The statement of [getAllProperties] *)

Lemma build_statement_params options limit :
  (build_statement options limit).2 =
  (map (bound options) (present options) ++ [default_arg limit (JNum 10)])%list.
Proof. by_filters options limit; reflexivity. Qed.

Lemma build_statement_placeholders options limit :
  placeholders (build_statement options limit).1 =
  seq 1 (length (build_statement options limit).2).
Proof. by_filters options limit; vm_compute; reflexivity. Qed.

Lemma build_statement_clauses options limit :
  Forall (fun c => contains c (build_statement options limit).1 = true)
         (clauses options).
Proof.
  by_filters options limit;
    repeat (constructor; [vm_compute; reflexivity|]); constructor.
Qed.

(** Which filters are present decides the whole text and the number of
    values; a falsy option leaves no trace in either. *)
Lemma build_statement_ext options options' limit :
  Forall (fun k =>
    truthy (options !!! k) = truthy (options' !!! k) /\
    (truthy (options !!! k) = true -> options !!! k = options' !!! k)) filter_keys ->
  build_statement options limit = build_statement options' limit.
Proof.
  unfold filter_keys, filter_order. cbn [map key]. intros H.
  repeat match goal with
         | H : Forall _ (_ :: _) |- _ => apply Forall_cons in H; destruct H as [[? ?] H]
         end.
  unfold build_statement.
  repeat match goal with
         | E : truthy (options !!! ?k) = truthy (options' !!! ?k),
           I : truthy (options !!! ?k) = true -> _ |- _ =>
             rewrite <- E; destruct (truthy (options !!! k));
             [rewrite <- (I eq_refl) | ]; clear E I
         end; reflexivity.
Qed.

Lemma parse_rejected text values d e :
  Pg.parse text = Pg.Fail e -> Pg.query text values d = (d, Rejected e).
Proof. unfold Pg.query. intros ->. reflexivity. Qed.

Section Handlers.
Context {Db Row : Type}.
Variable query : string -> list JsVal -> Db -> Db * Settled (list Row).

Lemma getAllProperties_rejected options limit w d e :
  query (build_statement options limit).1 (build_statement options limit).2 (db w)
    = (d, Rejected e) ->
  getAllProperties query options limit w
    = (mkWorld d (console w ++ [message e])%list, Fulfilled VUndefined).
Proof.
  intros H. unfold getAllProperties, catch_, then_, pool_query. rewrite H. reflexivity.
Qed.

Lemma getAllProperties_fulfilled options limit w d rows :
  query (build_statement options limit).1 (build_statement options limit).2 (db w)
    = (d, Fulfilled rows) ->
  getAllProperties query options limit w = (mkWorld d (console w), Fulfilled (VRows rows)).
Proof.
  intros H. unfold getAllProperties, catch_, then_, pool_query. rewrite H. reflexivity.
Qed.
End Handlers.

(** C1 (the code departs from it).  With [owner_id] and [city] both
    present the city condition is introduced by a second WHERE, not by
    AND: [whereAnd] is still WHERE after the [owner_id] branch.  The text
    then holds the keyword WHERE twice, no AND before the city condition,
    and the database refuses it, so the promise is fulfilled with
    [undefined]. *)
Theorem C1_owner_id_and_city_repeat_where options limit
    (Howner : truthy (options !!! "owner_id") = true)
    (Hcity : truthy (options !!! "city") = true) :
  let sql := (build_statement options limit).1 in
  contains "WHERE owner_id = $1 WHERE city LIKE $2 " sql = true /\
  occurrences "WHERE" sql = 2%nat /\
  contains "AND city" sql = false /\
  forall d log,
    getAllProperties Pg.query options limit (mkWorld d log)
    = (mkWorld d (log ++ ["syntax error at or near " +:+ Pg.quoted "WHERE"])%list,
       Fulfilled VUndefined).
Proof.
  assert (Hparse : Pg.parse (build_statement options limit).1
                   = Pg.Fail (Pg.syntax_error ["WHERE"])).
  { revert Howner Hcity. by_filters options limit; intros; try discriminate;
      vm_compute; reflexivity. }
  cbv zeta. repeat split.
  - revert Howner Hcity. by_filters options limit; intros; try discriminate;
      vm_compute; reflexivity.
  - revert Howner Hcity. by_filters options limit; intros; try discriminate;
      vm_compute; reflexivity.
  - revert Howner Hcity. by_filters options limit; intros; try discriminate;
      vm_compute; reflexivity.
  - intros d log.
    apply (getAllProperties_rejected Pg.query options limit (mkWorld d log) d
             (Pg.syntax_error ["WHERE"])).
    apply parse_rejected, Hparse.
Qed.

Lemma C1_witness :
  truthy (owner_and_city !!! "owner_id") = true /\
  truthy (owner_and_city !!! "city") = true /\
  contains "WHERE owner_id = $1 WHERE city LIKE $2 "
    (build_statement owner_and_city JUndefined).1 = true /\
  occurrences "WHERE" (build_statement owner_and_city JUndefined).1 = 2%nat /\
  contains "AND city" (build_statement owner_and_city JUndefined).1 = false /\
  forall d log,
    getAllProperties Pg.query owner_and_city JUndefined (mkWorld d log)
    = (mkWorld d (log ++ ["syntax error at or near " +:+ Pg.quoted "WHERE"])%list,
       Fulfilled VUndefined).
Proof.
  split; [reflexivity | split; [reflexivity | ]].
  apply (C1_owner_id_and_city_repeat_where owner_and_city JUndefined); reflexivity.
Defined.

(** The text built for [owner_and_city], in full. *)
Lemma owner_and_city_text :
  (build_statement owner_and_city JUndefined).1 =
    nl +:+ "  SELECT properties.*, AVG(property_reviews.rating) AS average_rating" +:+
    nl +:+ "  FROM properties" +:+
    nl +:+ "    JOIN property_reviews ON properties.id = property_id" +:+
    nl +:+ "  WHERE owner_id = $1 WHERE city LIKE $2 GROUP BY properties.id " +:+
    nl +:+ "  ORDER BY cost_per_night" +:+
    nl +:+ "  LIMIT $3;" +:+
    nl +:+ "  " /\
  occurrences "WHERE" (build_statement owner_and_city JUndefined).1 = 2%nat.
Proof. split; vm_compute; reflexivity. Qed.

(** C2.  Each present filter binds exactly one value; the values are
    bound in the order owner_id, city, minimum_price_per_night,
    maximum_price_per_night, minimum_rating, limit; the placeholders of
    the text are $1, $2, ... in this order, one per value; and the clause
    of the i-th present filter carries the placeholder $i. *)
Theorem C2_parameters_follow_evaluation_order options limit :
  let sql := (build_statement options limit).1 in
  let params := (build_statement options limit).2 in
  params = (map (bound options) (present options) ++ [default_arg limit (JNum 10)])%list /\
  length params = S (length (present options)) /\
  placeholders sql = seq 1 (length params) /\
  Forall (fun c => contains c sql = true) (clauses options).
Proof.
  cbv zeta. split; [apply build_statement_params | ].
  split; [rewrite build_statement_params, length_app, length_map; simpl; lia | ].
  split; [apply build_statement_placeholders | apply build_statement_clauses].
Qed.

Lemma no_filter_statement options limit :
  Forall (fun k => truthy (options !!! k) = false) filter_keys ->
  build_statement options limit = (unfiltered_sql, [default_arg limit (JNum 10)]).
Proof.
  unfold filter_keys, filter_order. cbn [map key]. intros H.
  repeat match goal with
         | H : Forall _ (_ :: _) |- _ => apply Forall_cons in H; destruct H as [? H]
         end.
  unfold build_statement.
  repeat match goal with
         | E : truthy (options !!! ?k) = false |- _ => rewrite E; clear E
         end.
  reflexivity.
Qed.

(** C3 (as the code has it).  When no filter is present the text is the
    fixed statement [unfiltered_sql]: it holds no WHERE keyword at all,
    only the limit is bound, and the database accepts it as a search
    with no condition. *)
Theorem C3_no_filter_no_where options limit
    (Hnone : Forall (fun k => truthy (options !!! k) = false) filter_keys) :
  build_statement options limit = (unfiltered_sql, [default_arg limit (JNum 10)]) /\
  occurrences "WHERE" (build_statement options limit).1 = 0%nat /\
  Pg.parse (build_statement options limit).1 = Pg.Ok (Pg.SelectListings [] None 1).
Proof.
  rewrite (no_filter_statement options limit Hnone).
  repeat split; vm_compute; reflexivity.
Qed.

Lemma C3_witness :
  Forall (fun k => truthy (owner_zero !!! k) = false) filter_keys /\
  build_statement owner_zero (JNum 5) = (unfiltered_sql, [JNum 5]) /\
  occurrences "WHERE" (build_statement owner_zero (JNum 5)).1 = 0%nat /\
  Pg.parse (build_statement owner_zero (JNum 5)).1 = Pg.Ok (Pg.SelectListings [] None 1).
Proof.
  assert (H : Forall (fun k => truthy (owner_zero !!! k) = false) filter_keys)
    by (repeat constructor).
  split; [exact H | exact (C3_no_filter_no_where owner_zero (JNum 5) H)].
Defined.

(** The claim C3 fails on the code: called with no option at all, the
    text holds no WHERE keyword, dangling or not. *)
Lemma C3_counterexample :
  occurrences "WHERE" (build_statement ∅ JUndefined).1 = 0%nat.
Proof. vm_compute; reflexivity. Qed.

Lemma lookup_total_delete_decide (m : gmap string JsVal) i j :
  delete i m !!! j = if decide (i = j) then JUndefined else m !!! j.
Proof.
  case_decide; [subst; by rewrite lookup_total_delete_eq | by apply lookup_total_delete_ne].
Qed.

Lemma lookup_total_insert_delete_falsy (options : gmap string JsVal) k v k' :
  truthy v = false ->
  truthy (<[k:=v]> options !!! k') = truthy (delete k options !!! k') /\
  (truthy (<[k:=v]> options !!! k') = true ->
   <[k:=v]> options !!! k' = delete k options !!! k').
Proof.
  intros Hv. rewrite lookup_total_insert, lookup_total_delete_decide.
  case_decide; [rewrite Hv; split; [reflexivity | discriminate] | split; reflexivity].
Qed.

Lemma present_insert_delete (options : gmap string JsVal) k v :
  k ∈ filter_keys -> truthy v = true ->
  length (present (<[k:=v]> options)) = S (length (present (delete k options))).
Proof.
  intros Hk Hv. unfold present, filter_order. cbn [List.filter key].
  unfold filter_keys, filter_order in Hk. cbn [map key] in Hk.
  repeat (apply elem_of_cons in Hk; destruct Hk as [-> | Hk]);
    [ .. | apply elem_of_nil in Hk; destruct Hk];
    rewrite !lookup_total_insert, !lookup_total_delete_decide;
    repeat (case_decide; [try discriminate | try congruence]);
    rewrite ?Hv; cbn [truthy inhabitant JsVal_inhabited];
    repeat match goal with
           | |- context [truthy (options !!! ?k')] => destruct (truthy (options !!! k'))
           end; reflexivity.
Qed.

(** C10.  A filter is present exactly when its option is truthy.  The
    values 0, the empty string, null and undefined are falsy; an option
    bound to a falsy value gives the same text and the same values as the
    options object without that key; bound to a truthy value it adds one
    value to the list. *)
Theorem C10_falsy_option_is_absent (options : gmap string JsVal) k v limit
    (Hk : k ∈ filter_keys) :
  (truthy (JNum 0) = false /\ truthy (JStr "") = false /\
   truthy JNull = false /\ truthy JUndefined = false) /\
  if truthy v then
    length (build_statement (<[k:=v]> options) limit).2
    = S (length (build_statement (delete k options) limit).2)
  else
    build_statement (<[k:=v]> options) limit = build_statement (delete k options) limit.
Proof.
  split; [repeat split | ].
  destruct (truthy v) eqn:Hv.
  - rewrite !build_statement_params, !length_app, !length_map.
    rewrite (present_insert_delete options k v Hk Hv). reflexivity.
  - apply build_statement_ext. apply Forall_forall. intros k' _.
    apply lookup_total_insert_delete_falsy, Hv.
Qed.

Lemma C10_witness :
  "minimum_rating" ∈ filter_keys /\
  build_statement (<["minimum_rating" := JNum 0]> owner_and_city) JUndefined
  = build_statement (delete "minimum_rating" owner_and_city) JUndefined.
Proof.
  assert (Hk : "minimum_rating" ∈ filter_keys)
    by (cbv [filter_keys filter_order map key]; repeat constructor).
  split; [exact Hk | ].
  exact (proj2 (C10_falsy_option_is_absent owner_and_city "minimum_rating" (JNum 0)
                  JUndefined Hk)).
Defined.

(** ** Errors and sentinels *)

Section Sentinels.
Context {Db Row : Type}.
Variable query : string -> list JsVal -> Db -> Db * Settled (list Row).

(** The three shapes of handler chain, each for any statement. *)
Lemma first_or_throw_settles st msg w :
  ((pool_query query st)
     .then (fun rows =>
        match rows with
        | [] => throw (Error msg)
        | r :: _ => ret (VRow r)
        end)
     .catch (fun err => console_log (message err) >> ret VNull)) w =
  match query st.1 st.2 (db w) with
  | (d, Rejected e) => (mkWorld d (console w ++ [message e])%list, Fulfilled VNull)
  | (d, Fulfilled []) => (mkWorld d (console w ++ [msg])%list, Fulfilled VNull)
  | (d, Fulfilled (r :: _)) => (mkWorld d (console w), Fulfilled (VRow r))
  end.
Proof.
  unfold catch_, then_, pool_query.
  destruct (query st.1 st.2 (db w)) as [d [[|r rows]|e]]; reflexivity.
Qed.

Lemma first_row_settles st w :
  ((pool_query query st)
     .then (fun rows => ret (first_row rows))
     .catch (fun err => console_log (message err) >> ret VNull)) w =
  match query st.1 st.2 (db w) with
  | (d, Rejected e) => (mkWorld d (console w ++ [message e])%list, Fulfilled VNull)
  | (d, Fulfilled rows) => (mkWorld d (console w), Fulfilled (first_row rows))
  end.
Proof.
  unfold catch_, then_, pool_query.
  destruct (query st.1 st.2 (db w)) as [d [rows|e]]; reflexivity.
Qed.

Lemma all_rows_settles st (sentinel : Value Row) w :
  ((pool_query query st)
     .then (fun rows => ret (VRows rows))
     .catch (fun err => console_log (message err) >> ret sentinel)) w =
  match query st.1 st.2 (db w) with
  | (d, Rejected e) => (mkWorld d (console w ++ [message e])%list, Fulfilled sentinel)
  | (d, Fulfilled rows) => (mkWorld d (console w), Fulfilled (VRows rows))
  end.
Proof.
  unfold catch_, then_, pool_query.
  destruct (query st.1 st.2 (db w)) as [d [rows|e]]; reflexivity.
Qed.

(** C5.  Whatever the pool, a database error makes [getAllProperties]
    log the message and fulfil its promise with [undefined], and makes
    each of the five other operations log it and fulfil with [null];
    the promise of no operation is ever rejected. *)
Theorem C5_errors_become_sentinels :
  (forall options limit,
     swallowed query (getAllProperties query options limit)
               (build_statement options limit) VUndefined) /\
  (forall email,
     swallowed query (getUserWithEmail query email) (getUserWithEmail_statement email) VNull) /\
  (forall id,
     swallowed query (getUserWithId query id) (getUserWithId_statement id) VNull) /\
  (forall user,
     swallowed query (addUser query user) (addUser_statement user) VNull) /\
  (forall guest_id limit,
     swallowed query (getAllReservations query guest_id limit)
               (getAllReservations_statement guest_id limit) VNull) /\
  (forall property,
     swallowed query (addProperty query property) (addProperty_statement property) VNull) /\
  (forall options limit, never_rejects (getAllProperties query options limit)) /\
  (forall email, never_rejects (getUserWithEmail query email)) /\
  (forall id, never_rejects (getUserWithId query id)) /\
  (forall user, never_rejects (addUser query user)) /\
  (forall guest_id limit, never_rejects (getAllReservations query guest_id limit)) /\
  (forall property, never_rejects (addProperty query property)).
Proof.
  unfold swallowed, never_rejects.
  unfold getAllProperties, getUserWithEmail, getUserWithId, addUser,
    getAllReservations, addProperty.
  repeat split; intros;
    rewrite ?first_or_throw_settles, ?first_row_settles, ?all_rows_settles;
    try match goal with H : query _ _ _ = _ |- _ => rewrite H; reflexivity end;
    match goal with
    | |- context [query ?a ?b ?c] => destruct (query a b c) as [d [[|r rows]|e]]
    end; eauto.
Qed.

(** [getUserWithEmail] on any pool, case by case. *)
Lemma getUserWithEmail_settles email w :
  getUserWithEmail query email w =
  match query (getUserWithEmail_statement email).1
              (getUserWithEmail_statement email).2 (db w) with
  | (d, Rejected e) => (mkWorld d (console w ++ [message e])%list, Fulfilled VNull)
  | (d, Fulfilled []) =>
      (mkWorld d (console w ++ ["Invalid email address"])%list, Fulfilled VNull)
  | (d, Fulfilled (r :: _)) => (mkWorld d (console w), Fulfilled (VRow r))
  end.
Proof. apply first_or_throw_settles. Qed.

Lemma addUser_settles user w :
  addUser query user w =
  match query (addUser_statement user).1 (addUser_statement user).2 (db w) with
  | (d, Rejected e) => (mkWorld d (console w ++ [message e])%list, Fulfilled VNull)
  | (d, Fulfilled rows) => (mkWorld d (console w), Fulfilled (first_row rows))
  end.
Proof. apply first_row_settles. Qed.
End Sentinels.

Lemma C5_witness :
  getAllProperties Pg.query ∅ (JNum (-1)) (mkWorld sample_db [])
  = (mkWorld sample_db ["LIMIT must not be negative"], Fulfilled VUndefined) /\
  getUserWithId Pg.query (JStr "abc") (mkWorld sample_db [])
  = (mkWorld sample_db ["invalid input syntax for type integer: " +:+ Pg.quoted "abc"],
     Fulfilled VNull).
Proof.
  pose proof (C5_errors_become_sentinels Pg.query) as (Hprops & _ & Hid & _).
  split.
  - exact (Hprops ∅ (JNum (-1)) (mkWorld sample_db []) sample_db
             (Error "LIMIT must not be negative") eq_refl).
  - exact (Hid (JStr "abc") (mkWorld sample_db []) sample_db
             (Error ("invalid input syntax for type integer: " +:+ Pg.quoted "abc"))
             eq_refl).
Defined.

(** ** The database model *)

Lemma int_of_text_dec z : Pg.int_of_text (dec z) = Pg.Ok z.
Proof.
  unfold Pg.int_of_text, dec.
  rewrite NilZero.isi.
  - rewrite DecimalZ.of_to. reflexivity.
  - destruct z; simpl; try discriminate.
    intros H. injection H as H. exact (Unsigned.to_uint_nonnil _ H).
  - destruct z; simpl; try discriminate.
    intros H. injection H as H. exact (Unsigned.to_uint_nonnil _ H).
Qed.

Lemma query_search text values d conds having limit :
  Pg.parse text = Pg.Ok (Pg.SelectListings conds having limit) ->
  length values = Pg.arity (Pg.SelectListings conds having limit) ->
  Pg.query text values d
  = (d, Pg.settle (Pg.run_search d values conds having limit)).
Proof.
  intros Hp Ha. unfold Pg.query. rewrite Hp, Ha, Nat.eqb_refl. reflexivity.
Qed.

(** *** ORDER BY *)

Lemma insert_by_cost_perm x l : Pg.insert_by_cost x l ≡ₚ x :: l.
Proof.
  induction l as [|y l IH]; simpl; [reflexivity|].
  destruct (_ <=? _); [reflexivity|].
  rewrite IH. apply Permutation_swap.
Qed.

Lemma order_by_cost_perm l : Pg.order_by_cost l ≡ₚ l.
Proof.
  induction l as [|x l IH]; simpl; [reflexivity|].
  rewrite insert_by_cost_perm, IH. reflexivity.
Qed.

Lemma insert_by_cost_sorted x l :
  StronglySorted cost_le l -> StronglySorted cost_le (Pg.insert_by_cost x l).
Proof.
  induction 1 as [|y l Hs IH Hall]; simpl.
  - repeat constructor.
  - destruct (Z.leb_spec (Pg.cost_per_night x.1) (Pg.cost_per_night y.1)) as [Hle|Hgt].
    + constructor; [constructor; assumption|].
      constructor; [exact Hle|].
      eapply Forall_impl; [exact Hall|]. unfold cost_le. intros z Hz. lia.
    + constructor; [exact IH|].
      rewrite insert_by_cost_perm. constructor; [unfold cost_le; lia | exact Hall].
Qed.

Lemma order_by_cost_sorted l : StronglySorted cost_le (Pg.order_by_cost l).
Proof.
  induction l as [|x l IH]; simpl; [constructor | apply insert_by_cost_sorted, IH].
Qed.

Lemma StronglySorted_take {A} (R : A -> A -> Prop) n l :
  StronglySorted R l -> StronglySorted R (take n l).
Proof.
  intros H. revert n. induction H as [|x l Hs IH Hall]; intros [|n]; simpl;
    try constructor; [apply IH|].
  apply Forall_take, Hall.
Qed.

Lemma StronglySorted_map {A B} (R : A -> A -> Prop) (S : B -> B -> Prop) (f : A -> B) l :
  (forall a b, R a b -> S (f a) (f b)) ->
  StronglySorted R l -> StronglySorted S (map f l).
Proof.
  intros Hf. induction 1 as [|x l Hs IH Hall]; simpl; constructor; [exact IH|].
  apply Forall_map. eapply Forall_impl; [exact Hall|]. intros b Hb. apply Hf, Hb.
Qed.

(** *** LIMIT *)

Lemma limit_count_number params k n :
  params !! (k - 1)%nat = Some (JNum n) -> 0 <= n ->
  Pg.limit_count params k = Pg.Ok (Some (Z.to_nat n)).
Proof.
  intros Hk Hn. unfold Pg.limit_count, Pg.int_param, Pg.param. rewrite Hk.
  cbn [Pg.prepare to_string Pg.res_bind]. rewrite int_of_text_dec.
  cbn [Pg.res_bind]. destruct (Z.ltb_spec n 0); [lia | reflexivity].
Qed.

Lemma limit_count_negative params k n :
  params !! (k - 1)%nat = Some (JNum n) -> n < 0 ->
  Pg.limit_count params k = Pg.Fail (Error "LIMIT must not be negative").
Proof.
  intros Hk Hn. unfold Pg.limit_count, Pg.int_param, Pg.param. rewrite Hk.
  cbn [Pg.prepare to_string Pg.res_bind]. rewrite int_of_text_dec.
  cbn [Pg.res_bind]. destruct (Z.ltb_spec n 0); [reflexivity | lia].
Qed.

(** The rows of a search that the database accepts. *)
Lemma run_search_rows d params conds having limit wh hv n :
  Pg.res_all (Pg.cond_pred params) conds = Pg.Ok wh ->
  Pg.having_pred params having = Pg.Ok hv ->
  Pg.limit_count params limit = Pg.Ok n ->
  Pg.run_search d params conds having limit =
  Pg.Ok (map (fun g => Pg.RListing g.1 g.2)
           (Pg.take_limit n (Pg.order_by_cost
              (filter (fun g => hv g.2)
                 (omap (Pg.listing d)
                    (filter (fun p => Pg.holds_all wh p) (Pg.properties d))))))).
Proof.
  intros Hw Hh Hl. unfold Pg.run_search. rewrite Hw, Hh, Hl. reflexivity.
Qed.

Lemma unfiltered_parse : Pg.parse unfiltered_sql = Pg.Ok (Pg.SelectListings [] None 1).
Proof. vm_compute; reflexivity. Qed.

(** C7 (as the code has it).  With no filter present and a limit that
    is an integer [n] from 0 to the largest bigint (10 when the argument
    is omitted), the promise is fulfilled with a list of at most [n]
    rows, each a property with its average rating, in non-decreasing
    order of cost_per_night; the database and the console are
    untouched. *)
Theorem C7_unfiltered_search_is_limited_and_sorted options limit n d log
    (Hnone : Forall (fun k => truthy (options !!! k) = false) filter_keys)
    (Hlimit : default_arg limit (JNum 10) = JNum n)
    (Hn : 0 <= n)
    (Hmax : n <= 9223372036854775807) :
  exists rows,
    getAllProperties Pg.query options limit (mkWorld d log)
    = (mkWorld d log, Fulfilled (VRows rows)) /\
    (length rows <= Z.to_nat n)%nat /\
    StronglySorted (fun a b => row_cost a <= row_cost b) rows /\
    Forall is_listing rows.
Proof.
  eexists. split.
  - apply (getAllProperties_fulfilled Pg.query options limit (mkWorld d log) d).
    rewrite (no_filter_statement options limit Hnone), Hlimit. cbn [fst snd db].
    rewrite (query_search unfiltered_sql [JNum n] d [] None 1 unfiltered_parse eq_refl).
    erewrite run_search_rows;
      [reflexivity | reflexivity | reflexivity | ].
    apply limit_count_number; [reflexivity | exact Hn].
  - cbn [Pg.take_limit]. split; [|split].
    + rewrite length_map, length_take. lia.
    + apply (StronglySorted_map cost_le); [intros a b H; exact H|].
      apply StronglySorted_take, order_by_cost_sorted.
    + apply Forall_map, Forall_forall. intros g _. exact I.
Qed.

Lemma C7_witness :
  Forall (fun k => truthy ((∅ : gmap string JsVal) !!! k) = false) filter_keys /\
  default_arg (JNum 2) (JNum 10) = JNum 2 /\ 0 <= 2 /\ 2 <= 9223372036854775807 /\
  exists rows,
    getAllProperties Pg.query ∅ (JNum 2) (mkWorld sample_db [])
    = (mkWorld sample_db [], Fulfilled (VRows rows)) /\
    (length rows <= Z.to_nat 2)%nat /\
    StronglySorted (fun a b => row_cost a <= row_cost b) rows /\
    Forall is_listing rows.
Proof.
  assert (H : Forall (fun k => truthy ((∅ : gmap string JsVal) !!! k) = false) filter_keys)
    by (repeat constructor).
  split; [exact H | split; [reflexivity | split; [lia | split; [lia | ]]]].
  exact (C7_unfiltered_search_is_limited_and_sorted ∅ (JNum 2) 2 sample_db [] H eq_refl
           ltac:(lia) ltac:(lia)).
Defined.

(** The claim C7 fails for a negative limit: the database refuses the
    statement and the promise is fulfilled with [undefined], not with a
    list. *)
Lemma C7_counterexample :
  getAllProperties Pg.query ∅ (JNum (-1)) (mkWorld sample_db [])
  = (mkWorld sample_db ["LIMIT must not be negative"], Fulfilled VUndefined).
Proof. vm_compute; reflexivity. Qed.

Example unfiltered_sample :
  exists a b avg_a avg_b,
    getAllProperties Pg.query ∅ (JNum 2) (mkWorld sample_db [])
    = (mkWorld sample_db [], Fulfilled (VRows [Pg.RListing a avg_a; Pg.RListing b avg_b]))
    /\ Pg.cost_per_night a = 10050 /\ Pg.cost_per_night b = 15000.
Proof. do 4 eexists. vm_compute. repeat split. Qed.

(** *** Users *)

Lemma select_by_email_absent (email : string) (us : list Pg.User) :
  email ∉ map Pg.user_email us ->
  filter (fun u => Pg.user_email u = email) us = [].
Proof.
  induction us as [|u us IH]; [reflexivity|]. cbn [map]. intros H.
  apply not_elem_of_cons in H as [Hne Hnot].
  rewrite filter_cons_False by congruence. apply IH, Hnot.
Qed.

Lemma getUserWithEmail_query d (email : string) :
  Pg.query (getUserWithEmail_statement (JStr email)).1
           (getUserWithEmail_statement (JStr email)).2 d
  = (d, Fulfilled (map Pg.RUser (filter (fun u => Pg.user_email u = email) (Pg.users d)))).
Proof. reflexivity. Qed.

(** C6.  For an email that no row of [users] carries, the promise of
    [getUserWithEmail] is fulfilled with [null] after the message
    'Invalid email address' is logged; and whatever the pool and the
    argument, the promise is fulfilled, with [null] on a database error
    (after logging it) and on an empty result. *)
Theorem C6_unknown_email_gives_null d log (email : string)
    (Habsent : email ∉ map Pg.user_email (Pg.users d)) :
  getUserWithEmail Pg.query (JStr email) (mkWorld d log)
  = (mkWorld d (log ++ ["Invalid email address"])%list, Fulfilled VNull) /\
  forall {Db Row} (query : string -> list JsVal -> Db -> Db * Settled (list Row))
         (v : JsVal) (w : World Db),
    getUserWithEmail query v w =
    match query (getUserWithEmail_statement v).1 (getUserWithEmail_statement v).2 (db w) with
    | (d', Rejected e) => (mkWorld d' (console w ++ [message e])%list, Fulfilled VNull)
    | (d', Fulfilled []) =>
        (mkWorld d' (console w ++ ["Invalid email address"])%list, Fulfilled VNull)
    | (d', Fulfilled (r :: _)) => (mkWorld d' (console w), Fulfilled (VRow r))
    end.
Proof.
  split.
  - rewrite getUserWithEmail_settles. cbn [db console].
    rewrite getUserWithEmail_query, (select_by_email_absent email _ Habsent). reflexivity.
  - intros. apply getUserWithEmail_settles.
Qed.

Lemma C6_witness :
  ("bob@example.com" ∉ map Pg.user_email (Pg.users sample_db)) /\
  getUserWithEmail Pg.query (JStr "bob@example.com") (mkWorld sample_db [])
  = (mkWorld sample_db ["Invalid email address"], Fulfilled VNull).
Proof.
  assert (H : "bob@example.com" ∉ map Pg.user_email (Pg.users sample_db)).
  { intros Hin. apply list_elem_of_singleton in Hin. discriminate Hin. }
  split; [exact H | ].
  exact (proj1 (C6_unknown_email_gives_null sample_db [] "bob@example.com" H)).
Defined.

Lemma select_by_email_fresh (email : string) (us : list Pg.User) u :
  email ∉ map Pg.user_email us -> Pg.user_email u = email ->
  filter (fun u => Pg.user_email u = email) (us ++ [u])%list = [u].
Proof.
  intros Habs Hu. rewrite filter_app, (select_by_email_absent email us Habs).
  cbn [app]. rewrite filter_cons_True by exact Hu. reflexivity.
Qed.

(** C9.  For a user object whose [name], [password] and [email] are
    strings and whose email no row of [users] carries, [addUser] is
    fulfilled with the inserted row, whose name and email are those of
    the object, and [getUserWithEmail] with the same email, run next, is
    fulfilled with that same row. *)
Theorem C9_added_user_is_found d log (user : gmap string JsVal) (name password email : string)
    (Hname : user !! "name" = Some (JStr name))
    (Hpassword : user !! "password" = Some (JStr password))
    (Hemail : user !! "email" = Some (JStr email))
    (Hfresh : email ∉ map Pg.user_email (Pg.users d)) :
  exists u w1,
    addUser Pg.query user (mkWorld d log) = (w1, Fulfilled (VRow (Pg.RUser u))) /\
    Pg.user_name u = name /\
    Pg.user_email u = email /\
    getUserWithEmail Pg.query (JStr email) w1 = (w1, Fulfilled (VRow (Pg.RUser u))).
Proof.
  assert (Hadd : Pg.query (addUser_statement user).1 (addUser_statement user).2 d
    = (Pg.mkDatabase (Pg.users d ++ [Pg.mkUser (Pg.users_id_seq d + 1) name email password])%list
         (Pg.users_id_seq d + 1) (Pg.properties d) (Pg.property_reviews d),
       Fulfilled [Pg.RUser (Pg.mkUser (Pg.users_id_seq d + 1) name email password)])).
  { unfold addUser_statement. cbn [fst snd]. rewrite !lookup_total_alt, Hname, Hpassword, Hemail.
    cbn [default from_option id].
    unfold Pg.query.
    replace (Pg.parse _) with (Pg.Ok Pg.InsertUser) by (vm_compute; reflexivity).
    cbn [length Pg.arity Nat.eqb negb].
    unfold Pg.run_insert_user, Pg.param.
    cbn [lookup list_lookup Nat.sub id Pg.prepare to_string Pg.res_bind Pg.not_null].
    rewrite bool_decide_eq_false_2 by exact Hfresh. reflexivity. }
  eexists _, _. split; [|split; [|split]].
  - rewrite addUser_settles. cbn [db console]. rewrite Hadd. reflexivity.
  - reflexivity.
  - reflexivity.
  - rewrite getUserWithEmail_settles. cbn [db console].
    rewrite getUserWithEmail_query. cbn [Pg.users].
    rewrite (select_by_email_fresh email (Pg.users d)
               (Pg.mkUser (Pg.users_id_seq d + 1) name email password) Hfresh eq_refl).
    reflexivity.
Qed.

Lemma C9_witness :
  exists u w1,
    addUser Pg.query new_user (mkWorld sample_db []) = (w1, Fulfilled (VRow (Pg.RUser u))) /\
    Pg.user_name u = "Bob" /\
    Pg.user_email u = "bob@example.com" /\
    getUserWithEmail Pg.query (JStr "bob@example.com") w1
    = (w1, Fulfilled (VRow (Pg.RUser u))).
Proof.
  apply (C9_added_user_is_found sample_db [] new_user "Bob" "hunter2" "bob@example.com");
    try reflexivity.
  intros Hin. apply list_elem_of_singleton in Hin. discriminate Hin.
Defined.

(** *** WHERE *)

Lemma res_all_elem {A B} (f : A -> Pg.Res B) l bs a :
  Pg.res_all f l = Pg.Ok bs -> a ∈ l -> exists b, f a = Pg.Ok b /\ b ∈ bs.
Proof.
  revert bs. induction l as [|x l IH]; intros bs H Ha.
  - apply elem_of_nil in Ha. destruct Ha.
  - cbn [Pg.res_all] in H. destruct (f x) as [b|e] eqn:Hx; [|discriminate].
    cbn [Pg.res_bind] in H. destruct (Pg.res_all f l) as [bs'|e]; [|discriminate].
    cbn [Pg.res_bind] in H. injection H as <-.
    apply elem_of_cons in Ha as [->|Ha].
    + exists b. split; [exact Hx | left].
    + destruct (IH bs' eq_refl Ha) as (b' & Hb' & Hin). exists b'. split; [exact Hb' | by right].
Qed.

Lemma holds_all_elem wh p f :
  Pg.holds_all wh p = true -> f ∈ wh -> f p = true.
Proof.
  unfold Pg.holds_all. rewrite forallb_forall. intros H Hf.
  apply H, list_elem_of_In, Hf.
Qed.

Lemma listing_fst d p g : Pg.listing d p = Some g -> g.1 = p.
Proof.
  unfold Pg.listing. destruct (Pg.ratings_of d p); [discriminate|].
  intros H. injection H as <-. reflexivity.
Qed.

Lemma take_limit_elem {A} n (l : list A) x : x ∈ Pg.take_limit n l -> x ∈ l.
Proof.
  destruct n as [k|]; cbn [Pg.take_limit]; [|tauto].
  intros H. apply list_elem_of_lookup in H as [i Hi].
  apply lookup_take_Some in Hi as [Hi _]. apply list_elem_of_lookup. eauto.
Qed.

(** Every row of an accepted search is a property of the table that
    satisfies each comparison of the WHERE clause. *)
Lemma search_rows_satisfy d d' text values conds having limit rows c f :
  Pg.parse text = Pg.Ok (Pg.SelectListings conds having limit) ->
  Pg.query text values d = (d', Fulfilled rows) ->
  c ∈ conds -> Pg.cond_pred values c = Pg.Ok f ->
  Forall (fun r => exists p avg,
            r = Pg.RListing p avg /\ p ∈ Pg.properties d /\ f p = true) rows.
Proof.
  intros Hp Hq Hc Hf. unfold Pg.query in Hq. rewrite Hp in Hq.
  destruct (negb _); [discriminate|].
  unfold Pg.run_search in Hq.
  destruct (Pg.res_all (Pg.cond_pred values) conds) as [wh|e] eqn:Hw; [|discriminate].
  destruct (Pg.having_pred values having) as [hv|e]; [|discriminate].
  destruct (Pg.limit_count values limit) as [n|e]; [|discriminate].
  cbn [Pg.res_bind Pg.settle] in Hq. injection Hq as _ <-.
  apply Forall_map, Forall_forall. intros g Hg. cbn beta.
  exists g.1, g.2. split; [reflexivity|].
  apply take_limit_elem in Hg. rewrite order_by_cost_perm in Hg.
  apply list_elem_of_filter in Hg as [_ Hg].
  apply list_elem_of_omap in Hg as (p & Hp' & Hl).
  apply list_elem_of_filter in Hp' as [Hall Hin].
  rewrite (listing_fst d p g Hl).
  split; [exact Hin|].
  destruct (res_all_elem _ _ _ c Hw Hc) as (f' & Hf' & Hin').
  rewrite Hf in Hf'. injection Hf' as <-.
  apply (holds_all_elem wh p f); [apply Is_true_true, Hall | exact Hin'].
Qed.

Lemma cost_above_pred params k s lo :
  params !! (k - 1)%nat = Some (JStr s) -> Pg.int_of_text s = Pg.Ok lo ->
  Pg.cond_pred params (Pg.CostAbove k) = Pg.Ok (fun p => lo <? Pg.cost_per_night p ÷ 100).
Proof.
  intros Hk Hs. unfold Pg.cond_pred, Pg.int_param, Pg.param. rewrite Hk.
  cbn [Pg.prepare to_string Pg.res_bind]. rewrite Hs. reflexivity.
Qed.

Lemma cost_below_pred params k s hi :
  params !! (k - 1)%nat = Some (JStr s) -> Pg.int_of_text s = Pg.Ok hi ->
  Pg.cond_pred params (Pg.CostBelow k) = Pg.Ok (fun p => Pg.cost_per_night p ÷ 100 <? hi).
Proof.
  intros Hk Hs. unfold Pg.cond_pred, Pg.int_param, Pg.param. rewrite Hk.
  cbn [Pg.prepare to_string Pg.res_bind]. rewrite Hs. reflexivity.
Qed.

(** How the two price filters reach the database: either the text is
    refused, or both comparisons are in its WHERE clause, each with the
    placeholder of its own value. *)
Lemma price_conditions options limit :
  truthy (options !!! "minimum_price_per_night") = true ->
  truthy (options !!! "maximum_price_per_night") = true ->
  (exists e, Pg.parse (build_statement options limit).1 = Pg.Fail e) \/
  exists conds having lim i j,
    Pg.parse (build_statement options limit).1 = Pg.Ok (Pg.SelectListings conds having lim) /\
    Pg.CostAbove i ∈ conds /\ Pg.CostBelow j ∈ conds /\
    (build_statement options limit).2 !! (i - 1)%nat
      = Some (JStr (to_string (options !!! "minimum_price_per_night"))) /\
    (build_statement options limit).2 !! (j - 1)%nat
      = Some (JStr (to_string (options !!! "maximum_price_per_night"))).
Proof.
  by_filters options limit; intros; try discriminate;
    first [ left; eexists; vm_compute; reflexivity
          | right; eexists _, _, _, _, _; split; [vm_compute; reflexivity|];
            repeat split; solve [repeat constructor] ].
Qed.

Lemma price_operators options limit :
  truthy (options !!! "minimum_price_per_night") = true ->
  truthy (options !!! "maximum_price_per_night") = true ->
  contains "cost_per_night / 100 > $" (build_statement options limit).1 = true /\
  contains "cost_per_night / 100 < $" (build_statement options limit).1 = true.
Proof.
  by_filters options limit; intros; try discriminate; split; vm_compute; reflexivity.
Qed.

Lemma quot_100_bounds c lo hi :
  lo < c ÷ 100 < hi -> 100 * lo < c < 100 * hi.
Proof.
  intros H. pose proof (Z.quot_rem' c 100) as Hc.
  destruct (Z.le_gt_cases 0 c) as [Hpos|Hneg].
  - pose proof (Z.rem_bound_pos c 100 Hpos ltac:(lia)). lia.
  - pose proof (Z.rem_bound_pos_neg c 100 ltac:(lia) ltac:(lia)). lia.
Qed.

(** C8.  When both price filters are present and their texts read as
    the integers [lo] and [hi] (100 and 200 in the claim), the statement
    compares cost_per_night / 100 with [>] and with [<], and every row
    the promise is fulfilled with is a property of the table with
    lo < cost_per_night / 100 < hi, the division being that of integers;
    in cents, 100 * lo < cost_per_night < 100 * hi. *)
Theorem C8_price_bounds_are_strict options limit d log w' rows lo hi
    (Hmin : truthy (options !!! "minimum_price_per_night") = true)
    (Hlo : Pg.int_of_text (to_string (options !!! "minimum_price_per_night")) = Pg.Ok lo)
    (Hmax : truthy (options !!! "maximum_price_per_night") = true)
    (Hhi : Pg.int_of_text (to_string (options !!! "maximum_price_per_night")) = Pg.Ok hi)
    (Hrun : getAllProperties Pg.query options limit (mkWorld d log)
            = (w', Fulfilled (VRows rows))) :
  contains "cost_per_night / 100 > $" (build_statement options limit).1 = true /\
  contains "cost_per_night / 100 < $" (build_statement options limit).1 = true /\
  Forall (fun r => exists p avg,
            r = Pg.RListing p avg /\ p ∈ Pg.properties d /\
            lo < Pg.cost_per_night p ÷ 100 < hi /\
            100 * lo < Pg.cost_per_night p < 100 * hi) rows.
Proof.
  destruct (price_operators options limit Hmin Hmax) as [Hgt Hlt].
  split; [exact Hgt | split; [exact Hlt | ]].
  unfold getAllProperties in Hrun. rewrite all_rows_settles in Hrun. cbn [db console] in Hrun.
  destruct (Pg.query _ _ d) as [d' [rows'|e]] eqn:Hq; [|discriminate].
  injection Hrun as _ <-.
  destruct (price_conditions options limit Hmin Hmax)
    as [[e He] | (conds & having & lim & i & j & Hp & Hi & Hj & Hvi & Hvj)].
  - rewrite (parse_rejected _ _ d e He) in Hq. discriminate.
  - pose proof (search_rows_satisfy d d' _ _ conds having lim rows' _ _ Hp Hq Hi
                  (cost_above_pred _ i _ lo Hvi Hlo)) as Habove.
    pose proof (search_rows_satisfy d d' _ _ conds having lim rows' _ _ Hp Hq Hj
                  (cost_below_pred _ j _ hi Hvj Hhi)) as Hbelow.
    rewrite Forall_forall in Habove, Hbelow. apply Forall_forall. intros r Hr.
    destruct (Habove r Hr) as (p & avg & -> & Hin & Ha).
    destruct (Hbelow _ Hr) as (p' & avg' & Heq & _ & Hb). injection Heq as <- <-.
    apply Z.ltb_lt in Ha, Hb.
    exists p, avg. repeat split; try assumption; apply (quot_100_bounds _ lo hi); lia.
Qed.

Lemma C8_witness :
  exists p avg,
    getAllProperties Pg.query price_range JUndefined (mkWorld sample_db [])
    = (mkWorld sample_db [], Fulfilled (VRows [Pg.RListing p avg])) /\
    100 < Pg.cost_per_night p ÷ 100 < 200.
Proof.
  eexists _, _.
  assert (Hrun : getAllProperties Pg.query price_range JUndefined (mkWorld sample_db [])
           = (mkWorld sample_db [],
              Fulfilled (VRows [Pg.RListing (sample_property 3 2 15000 "Toronto") (4 # 1)])))
    by reflexivity.
  split; [exact Hrun | ].
  pose proof (C8_price_bounds_are_strict price_range JUndefined sample_db [] _ _ 100 200
                eq_refl eq_refl eq_refl eq_refl Hrun) as (_ & _ & Hall).
  apply Forall_cons in Hall as [(p & avg & Heq & _ & Hb & _) _].
  injection Heq as <- _. exact Hb.
Defined.

(** With the two price filters alone, both integers of the column's
    range, and a limit that is an integer from 0 to the largest bigint,
    every such call is fulfilled with a list. *)
Lemma price_range_fulfilled (options : gmap string JsVal) limit n d log lo hi :
  truthy (options !!! "owner_id") = false ->
  truthy (options !!! "city") = false ->
  truthy (options !!! "minimum_rating") = false ->
  options !!! "minimum_price_per_night" = JNum lo -> lo <> 0 -> int4 lo ->
  options !!! "maximum_price_per_night" = JNum hi -> hi <> 0 -> int4 hi ->
  default_arg limit (JNum 10) = JNum n -> 0 <= n <= bigint_max ->
  exists rows,
    getAllProperties Pg.query options limit (mkWorld d log)
    = (mkWorld d log, Fulfilled (VRows rows)).
Proof.
  intros Ho Hc Hr Hmin Hlo _ Hmax Hhi _ Hl [Hn _]. eexists.
  apply (getAllProperties_fulfilled Pg.query options limit (mkWorld d log) d).
  unfold build_statement. rewrite Ho, Hc, Hr, Hmin, Hmax, Hl.
  cbn [truthy]. destruct (Z.eqb_spec lo 0); [contradiction|].
  destruct (Z.eqb_spec hi 0); [contradiction|]. cbn [negb fst snd db to_string push app].
  erewrite (query_search _ _ d [Pg.CostAbove 1; Pg.CostBelow 2] None 3);
    [ | vm_compute; reflexivity | reflexivity ].
  erewrite run_search_rows; [reflexivity | | reflexivity | ].
  - cbn [Pg.res_all].
    rewrite (cost_above_pred [JStr (dec lo); JStr (dec hi); JNum n] 1 (dec lo) lo
               eq_refl (int_of_text_dec lo)).
    rewrite (cost_below_pred [JStr (dec lo); JStr (dec hi); JNum n] 2 (dec hi) hi
               eq_refl (int_of_text_dec hi)).
    reflexivity.
  - apply limit_count_number; [reflexivity | exact Hn].
Qed.

(** *** LIKE *)

Lemma like_percent_alone s : Pg.like "%" s = true.
Proof.
  cbn [Pg.like]. cbn. induction s as [|c s IH]; [reflexivity|].
  cbn. exact IH.
Qed.

Lemma like_percent_step p s :
  Pg.like (String "%" p) s =
  Pg.like p s || match s with
                 | EmptyString => false
                 | String _ s' => Pg.like (String "%" p) s'
                 end.
Proof. destruct s; reflexivity. Qed.

Lemma append_nil (b : string) : "" +:+ b = b.
Proof. reflexivity. Qed.

Lemma append_cons c (a b : string) : String c a +:+ b = String c (a +:+ b).
Proof. reflexivity. Qed.

Lemma like_percent p s :
  Pg.like (String "%" p) s = true <-> exists a b, s = a +:+ b /\ Pg.like p b = true.
Proof.
  induction s as [|d s IH]; rewrite like_percent_step.
  - rewrite orb_false_r. split.
    + intros H. exists "", "". split; [reflexivity | exact H].
    + intros (a & b & Hs & H). destruct a; [|discriminate].
      rewrite append_nil in Hs. subst b. exact H.
  - rewrite orb_true_iff, IH. split.
    + intros [H | (a & b & -> & H)].
      * exists "", (String d s). split; [reflexivity | exact H].
      * exists (String d a), b. split; [reflexivity | exact H].
    + intros (a & b & Hs & H). destruct a as [|d' a].
      * rewrite append_nil in Hs. subst b. left. exact H.
      * rewrite append_cons in Hs. injection Hs as -> ->. right.
        exists a, b. split; [reflexivity | exact H].
Qed.

Lemma like_plain_step c p s :
  plain_char c = true ->
  Pg.like (String c p) s =
  match s with
  | EmptyString => false
  | String d s' => (c =? d)%char && Pg.like p s'
  end.
Proof.
  unfold plain_char. intros H. apply negb_true_iff in H.
  apply orb_false_iff in H as [H H3]. apply orb_false_iff in H as [H1 H2].
  cbn [Pg.like]. rewrite H1, H2, H3. reflexivity.
Qed.

Lemma like_plain_prefix x p s :
  plain x = true ->
  Pg.like (x +:+ p) s = true <-> exists s', s = x +:+ s' /\ Pg.like p s' = true.
Proof.
  revert s. induction x as [|c x IH]; intros s Hx.
  - rewrite append_nil. split.
    + intros H. exists s. split; [reflexivity | exact H].
    + intros (s' & -> & H). exact H.
  - cbn [plain] in Hx. apply andb_true_iff in Hx as [Hc Hx].
    rewrite append_cons, (like_plain_step c _ s Hc). destruct s as [|d s].
    + split; [discriminate | intros (s' & Hs & _); discriminate].
    + rewrite andb_true_iff, (IH s Hx). split.
      * intros [Hcd (s' & -> & H)]. apply Ascii.eqb_eq in Hcd as ->.
        exists s'. split; [reflexivity | exact H].
      * intros (s' & Hs & H). rewrite append_cons in Hs. injection Hs as -> ->.
        split; [apply Ascii.eqb_refl | exists s'; split; [reflexivity | exact H]].
Qed.

(** [city LIKE '%x%'] for a text [x] without [%], [_] and backslash:
    the city holds [x] as it is written. *)
Lemma like_substring x c :
  plain x = true ->
  Pg.like ("%" +:+ x +:+ "%") c = true <-> exists a b, c = a +:+ x +:+ b.
Proof.
  intros Hx. change ("%" +:+ x +:+ "%") with (String "%" (x +:+ "%")).
  rewrite like_percent. split.
  - intros (a & b & -> & H). apply (like_plain_prefix x "%" b Hx) in H as (s' & -> & _).
    exists a, s'. reflexivity.
  - intros (a & b & ->). exists a, (x +:+ b). split; [reflexivity|].
    apply (like_plain_prefix x "%" _ Hx). exists b. split; [reflexivity | apply like_percent_alone].
Qed.

Lemma like_pattern_ok_plain x p :
  plain x = true -> Pg.like_pattern_ok (x +:+ p) = Pg.like_pattern_ok p.
Proof.
  induction x as [|c x IH]; [reflexivity|]. cbn [plain]. intros H.
  apply andb_true_iff in H as [Hc Hx]. unfold plain_char in Hc.
  apply negb_true_iff, orb_false_iff in Hc as [_ Hc].
  rewrite append_cons. cbn [Pg.like_pattern_ok]. rewrite Hc. apply IH, Hx.
Qed.

Lemma city_statement x limit :
  x <> "" ->
  build_statement (city_option (JStr x)) limit
  = (city_sql, [JStr ("%" +:+ x +:+ "%"); default_arg limit (JNum 10)]).
Proof.
  intros Hx. unfold build_statement, city_option.
  replace (<["city":=JStr x]> (∅ : gmap string JsVal) !!! "owner_id") with JUndefined
    by reflexivity.
  replace (<["city":=JStr x]> (∅ : gmap string JsVal) !!! "city") with (JStr x)
    by reflexivity.
  replace (<["city":=JStr x]> (∅ : gmap string JsVal) !!! "minimum_price_per_night")
    with JUndefined by reflexivity.
  replace (<["city":=JStr x]> (∅ : gmap string JsVal) !!! "maximum_price_per_night")
    with JUndefined by reflexivity.
  replace (<["city":=JStr x]> (∅ : gmap string JsVal) !!! "minimum_rating")
    with JUndefined by reflexivity.
  destruct x; [contradiction|]. reflexivity.
Qed.

Lemma city_search c pat :
  Pg.like_pattern_ok pat = true ->
  Pg.run_search (one_city_db c) [JStr pat; JNum 10] [Pg.CityLike 1] None 2
  = if Pg.like pat c
    then Pg.Ok [Pg.RListing (sample_property 1 1 12000 c) (5 # 1)]
    else Pg.Ok [].
Proof.
  intros Hok. unfold Pg.run_search.
  cbn [Pg.res_all Pg.cond_pred Pg.param lookup list_lookup Nat.sub Pg.prepare to_string
       Pg.res_bind Pg.having_pred].
  rewrite Hok.
  replace (Pg.limit_count [JStr pat; JNum 10] 2) with (Pg.Ok (Some 10%nat))
    by (symmetry; apply (limit_count_number _ 2 10); [reflexivity | lia]).
  cbn [Pg.res_bind one_city_db Pg.properties].
  rewrite filter_cons, filter_nil. unfold Pg.holds_all. cbn [forallb sample_property Pg.city].
  rewrite andb_true_r.
  destruct (Pg.like pat c).
  - rewrite decide_True by exact I. reflexivity.
  - rewrite decide_False by (intros []). reflexivity.
Qed.

Lemma city_filter_accepts_like x c :
  x <> "" -> plain x = true ->
  city_filter_accepts (JStr x) c = Pg.like ("%" +:+ x +:+ "%") c.
Proof.
  intros Hne Hx. unfold city_filter_accepts, getAllProperties.
  rewrite all_rows_settles, (city_statement x JUndefined Hne). cbn [fst snd db default_arg].
  rewrite (query_search city_sql _ _ [Pg.CityLike 1] None 2)
    by (vm_compute; reflexivity).
  rewrite city_search.
  - destruct (Pg.like _ c); reflexivity.
  - change ("%" +:+ x +:+ "%") with (String "%" (x +:+ "%")).
    cbn [Pg.like_pattern_ok]. change (("%" =? "\")%char) with false. cbn beta iota.
    rewrite (like_pattern_ok_plain x "%" Hx). reflexivity.
Qed.

(** C4 (as the code has it).  With [options.city] a text [x] that is
    not empty and holds none of [%], [_] and backslash, the value bound
    is [%x%], the comparison is [city LIKE $1], and a property is kept
    exactly when its city holds [x] as a substring, letter case
    included. *)
Theorem C4_city_filter_is_exact_substring x c limit
    (Hne : x <> "") (Hplain : plain x = true) :
  build_statement (city_option (JStr x)) limit
  = (city_sql, [JStr ("%" +:+ x +:+ "%"); default_arg limit (JNum 10)]) /\
  contains "WHERE city LIKE $1 " city_sql = true /\
  (city_filter_accepts (JStr x) c = true <-> exists a b, c = a +:+ x +:+ b).
Proof.
  split; [apply city_statement, Hne | split; [vm_compute; reflexivity | ]].
  rewrite (city_filter_accepts_like x c Hne Hplain). apply like_substring, Hplain.
Qed.

Lemma C4_witness :
  "Van" <> "" /\ plain "Van" = true /\
  (city_filter_accepts (JStr "Van") "North Vancouver" = true <->
   exists a b, "North Vancouver" = a +:+ "Van" +:+ b).
Proof.
  assert (Hne : "Van" <> "") by discriminate.
  split; [exact Hne | split; [reflexivity | ]].
  exact (proj2 (proj2 (C4_city_filter_is_exact_substring "Van" "North Vancouver"
                         JUndefined Hne eq_refl))).
Defined.

(** The claim C4 fails: the match tells letter case apart, both in the
    stored city and in the option. *)
Lemma C4_counterexample :
  lower "Vancouver" = lower "vancouver" /\
  city_filter_accepts (JStr "Van") "Vancouver" = true /\
  city_filter_accepts (JStr "Van") "vancouver" = false /\
  lower "Van" = lower "van" /\
  city_filter_accepts (JStr "van") "Vancouver" = false.
Proof. repeat split; vm_compute; reflexivity. Qed.

(** ** More on the statement of [getAllProperties] *)

Lemma not_elem_of_ne {A} (x y : A) (l : list A) : x ∉ l -> y ∈ l -> x <> y.
Proof. intros Hx Hy ->. exact (Hx Hy). Qed.

(** X1.  An option the search does not know is ignored: adding any key
    other than the five filter keys to the options changes neither the
    text nor the values, hence not the operation, whatever the pool. *)
Theorem X1_unknown_option_is_ignored (options : gmap string JsVal) k v limit
    (Hk : k ∉ filter_keys) :
  build_statement (<[k:=v]> options) limit = build_statement options limit /\
  forall {Db Row} (query : string -> list JsVal -> Db -> Db * Settled (list Row)) w,
    getAllProperties query (<[k:=v]> options) limit w = getAllProperties query options limit w.
Proof.
  assert (H : build_statement (<[k:=v]> options) limit = build_statement options limit).
  { apply build_statement_ext, Forall_forall. intros k' Hk'.
    rewrite lookup_total_insert_ne by (apply (not_elem_of_ne k k' filter_keys); assumption).
    split; reflexivity. }
  split; [exact H | ]. intros. unfold getAllProperties. rewrite H. reflexivity.
Qed.

Lemma X1_witness :
  build_statement (<["page" := JStr "2"]> search_form) JUndefined
  = build_statement search_form JUndefined.
Proof.
  assert (Hk : "page" ∉ filter_keys).
  { cbv [filter_keys filter_order map key]. intros H.
    repeat (apply elem_of_cons in H as [H|H]; [discriminate H|]).
    apply elem_of_nil in H. exact H. }
  exact (proj1 (X1_unknown_option_is_ignored search_form "page" (JStr "2") JUndefined Hk)).
Defined.

(** X2.  No option value and no limit ever reaches the text: two calls
    whose options pass the same tests build the same text, whatever the
    values and the limits. *)
Theorem X2_text_holds_no_value (options options' : gmap string JsVal) limit limit'
    (Hsame : Forall (fun k => truthy (options !!! k) = truthy (options' !!! k)) filter_keys) :
  (build_statement options limit).1 = (build_statement options' limit').1.
Proof.
  unfold filter_keys, filter_order in Hsame. cbn [map key] in Hsame.
  repeat match goal with
         | H : Forall _ (_ :: _) |- _ => apply Forall_cons in H; destruct H as [? H]
         end.
  unfold build_statement.
  repeat match goal with
         | E : truthy (options !!! ?k) = truthy (options' !!! ?k) |- _ => rewrite E; clear E
         end.
  generalize (default_arg limit (JNum 10)) (default_arg limit' (JNum 10)).
  intros l l'.
  destruct (truthy (options' !!! "owner_id")), (truthy (options' !!! "city")),
           (truthy (options' !!! "minimum_price_per_night")),
           (truthy (options' !!! "maximum_price_per_night")),
           (truthy (options' !!! "minimum_rating"));
  generalize (to_string (options !!! "owner_id")) (to_string (options !!! "city"))
             (to_string (options !!! "minimum_price_per_night"))
             (to_string (options !!! "maximum_price_per_night"))
             (to_string (options !!! "minimum_rating"))
             (to_string (options' !!! "owner_id")) (to_string (options' !!! "city"))
             (to_string (options' !!! "minimum_price_per_night"))
             (to_string (options' !!! "maximum_price_per_night"))
             (to_string (options' !!! "minimum_rating"));
  intros; vm_compute; reflexivity.
Qed.

Lemma X2_witness :
  (build_statement (city_option (JStr "Vancouver")) (JNum 5)).1
  = (build_statement (city_option (JStr "x' OR 1=1 --")) JUndefined).1.
Proof.
  apply X2_text_holds_no_value. repeat constructor.
Defined.

(** X3.  The text holds two WHERE keywords exactly when [owner_id] comes
    with a city or a price filter, one when some condition is present
    otherwise, and none without a condition; the database accepts the
    text exactly when [owner_id] does not come with a city or a price
    filter. *)
Theorem X3_where_keywords options limit :
  occurrences "WHERE" (build_statement options limit).1
  = (if owner_with_condition options then 2
     else if any_condition options then 1 else 0)%nat /\
  accepted (Pg.parse (build_statement options limit).1)
  = negb (owner_with_condition options).
Proof.
  unfold owner_with_condition, any_condition.
  split; by_filters options limit; vm_compute; reflexivity.
Qed.

(** ** More on the handlers *)

Section Effects.
Context {Db Row : Type}.
Variable query : string -> list JsVal -> Db -> Db * Settled (list Row).

Lemma first_or_throw_effects st msg :
  one_query_one_line query
    ((pool_query query st)
       .then (fun rows =>
          match rows with
          | [] => throw (Error msg)
          | r :: _ => ret (VRow r)
          end)
       .catch (fun err => console_log (message err) >> ret VNull)) st VNull.
Proof.
  intros w. rewrite first_or_throw_settles.
  destruct (query st.1 st.2 (db w)) as [d [[|r rows]|e]]; cbn [fst snd db console];
    eexists; (split; [reflexivity | split; [reflexivity | eauto]]).
Qed.

Lemma first_row_effects st :
  one_query_one_line query
    ((pool_query query st)
       .then (fun rows => ret (first_row rows))
       .catch (fun err => console_log (message err) >> ret VNull)) st VNull.
Proof.
  intros w. rewrite first_row_settles.
  destruct (query st.1 st.2 (db w)) as [d [rows|e]]; cbn [fst snd db console];
    eexists; (split; [reflexivity | split; [reflexivity | eauto]]).
Qed.

Lemma all_rows_effects st sentinel :
  one_query_one_line query
    ((pool_query query st)
       .then (fun rows => ret (VRows rows))
       .catch (fun err => console_log (message err) >> ret sentinel)) st sentinel.
Proof.
  intros w. rewrite all_rows_settles.
  destruct (query st.1 st.2 (db w)) as [d [rows|e]]; cbn [fst snd db console];
    eexists; (split; [reflexivity | split; [reflexivity | eauto]]).
Qed.

(** X4.  Whatever the pool, each of the six operations runs one
    statement and leaves the database as that statement leaves it.  When
    the pool rejects, the error's message is logged as one new line after
    those already there and the sentinel is returned: [undefined] by
    [getAllProperties], [null] by the others.  When a lookup finds no
    row, 'Invalid email address' or 'Invalid user id' is logged and
    [null] returned.  In every other case nothing is logged and the rows,
    or the first row, are returned. *)
Theorem X4_one_query_one_line :
  (forall email, lookup_outcome query (getUserWithEmail query email)
                   (getUserWithEmail_statement email) "Invalid email address") /\
  (forall id, lookup_outcome query (getUserWithId query id)
                (getUserWithId_statement id) "Invalid user id") /\
  (forall user, insert_outcome query (addUser query user) (addUser_statement user)) /\
  (forall guest_id limit,
     search_outcome query (getAllReservations query guest_id limit)
       (getAllReservations_statement guest_id limit) VNull) /\
  (forall options limit,
     search_outcome query (getAllProperties query options limit)
       (build_statement options limit) VUndefined) /\
  (forall property, insert_outcome query (addProperty query property)
                      (addProperty_statement property)).
Proof.
  unfold lookup_outcome, insert_outcome, search_outcome,
    getUserWithEmail, getUserWithId, addUser, getAllReservations, getAllProperties,
    addProperty.
  repeat split; intros;
    rewrite ?first_or_throw_settles, ?first_row_settles, ?all_rows_settles;
    match goal with
    | |- context [query ?a ?b ?c] => destruct (query a b c) as [d [[|r rows]|e]]
    end; reflexivity.
Qed.

(** X5.  What each operation can return, whatever the pool: its promise
    is always fulfilled; the two user lookups give a row or [null]; the
    two searches a list or their sentinel ([undefined] for properties,
    [null] for reservations); the two inserts a row, [null], or
    [undefined] when the pool answers with no row at all. *)
Theorem X5_result_shapes w :
  (forall email, exists v, (getUserWithEmail query email w).2 = Fulfilled v /\
                           (is_row v \/ v = VNull)) /\
  (forall id, exists v, (getUserWithId query id w).2 = Fulfilled v /\
                        (is_row v \/ v = VNull)) /\
  (forall guest_id limit,
     exists v, (getAllReservations query guest_id limit w).2 = Fulfilled v /\
               (is_rows v \/ v = VNull)) /\
  (forall options limit,
     exists v, (getAllProperties query options limit w).2 = Fulfilled v /\
               (is_rows v \/ v = VUndefined)) /\
  (forall user, exists v, (addUser query user w).2 = Fulfilled v /\
                          (is_row v \/ v = VNull \/ v = VUndefined)) /\
  (forall property, exists v, (addProperty query property w).2 = Fulfilled v /\
                              (is_row v \/ v = VNull \/ v = VUndefined)).
Proof.
  unfold getUserWithEmail, getUserWithId, getAllReservations, getAllProperties,
    addUser, addProperty.
  repeat split; intros;
    rewrite ?first_or_throw_settles, ?first_row_settles, ?all_rows_settles;
    match goal with
    | |- context [query ?a ?b ?c] => destruct (query a b c) as [d [[|r rows]|e]]
    end; eexists; (split; [reflexivity | cbn; auto]).
Qed.
End Effects.

(** ** The statement of [addProperty] *)

(** X6.  [addProperty] binds the fourteen named fields of the object, in
    the order of the column list, to the placeholders $1 to $14 of a text
    that does not depend on the object; a field the object lacks is bound
    as [undefined]; and any other field of the object is ignored. *)
Theorem X6_addProperty_binds_named_fields (property : gmap string JsVal) k v
    (Hk : k ∉ propertyValues) :
  let st := addProperty_statement property in
  placeholders st.1 = seq 1 (length propertyValues) /\
  length st.2 = length propertyValues /\
  Forall2 (fun column value => value = default JUndefined (property !! column))
          propertyValues st.2 /\
  st.1 = (addProperty_statement ∅).1 /\
  addProperty_statement (<[k:=v]> property) = st.
Proof.
  cbv zeta. split; [vm_compute; reflexivity | ].
  split; [unfold addProperty_statement; cbn [snd]; apply length_map | ].
  split.
  { unfold addProperty_statement. cbn [snd]. apply Forall2_fmap_r, Forall_Forall2_diag.
    apply Forall_forall. intros c _. exact (lookup_total_alt property c). }
  split; [reflexivity | ].
  unfold addProperty_statement. f_equal.
  apply map_ext_in. intros c Hc. apply lookup_total_insert_ne.
  apply (not_elem_of_ne k c propertyValues Hk), list_elem_of_In, Hc.
Qed.

Lemma X6_witness :
  placeholders (addProperty_statement short_listing).1 = seq 1 (length propertyValues) /\
  addProperty_statement (<["id" := JNum 77]> short_listing)
  = addProperty_statement short_listing.
Proof.
  assert (Hk : "id" ∉ propertyValues).
  { cbv [propertyValues]. intros H.
    repeat (apply elem_of_cons in H as [H|H]; [discriminate H|]).
    apply elem_of_nil in H. exact H. }
  pose proof (X6_addProperty_binds_named_fields short_listing "id" (JNum 77) Hk)
    as (H1 & _ & _ & _ & H5).
  split; [exact H1 | exact H5].
Defined.

(** ** More on users *)

Lemma getUserWithId_query d v :
  Pg.query (getUserWithId_statement v).1 (getUserWithId_statement v).2 d
  = (d, Pg.settle (Pg.run_select_user_by_id d [v])).
Proof. reflexivity. Qed.

Lemma addUser_query d user :
  Pg.query (addUser_statement user).1 (addUser_statement user).2 d
  = ((Pg.run_insert_user d (addUser_statement user).2).1,
     Pg.settle (Pg.run_insert_user d (addUser_statement user).2).2).
Proof.
  unfold Pg.query.
  replace (Pg.parse (addUser_statement user).1) with (Pg.Ok Pg.InsertUser)
    by (vm_compute; reflexivity).
  cbn [addUser_statement snd length Pg.arity Nat.eqb negb].
  destruct (Pg.run_insert_user d _); reflexivity.
Qed.

Lemma not_digit_no_number c d : is_digit c = false -> uint_of_char c d = None.
Proof.
  destruct d as [d|]; [|reflexivity].
  destruct c as [[] [] [] [] [] [] [] []]; intros H; try reflexivity; discriminate H.
Qed.

(** Integer input refuses a text that does not start like a number. *)
Lemma int_of_text_refuses s :
  starts_like_number s = false -> exists e, Pg.int_of_text s = Pg.Fail e.
Proof.
  unfold Pg.int_of_text. destruct s as [|c s]; [eexists; reflexivity|].
  cbn [starts_like_number]. intros H.
  apply orb_false_iff in H as [H _]. apply orb_false_iff in H as [H _].
  apply orb_false_iff in H as [H _]. apply orb_false_iff in H as [Hd Hm].
  replace (NilZero.int_of_string (String c s)) with (@None Decimal.signed_int);
    [eexists; reflexivity|].
  unfold NilZero.int_of_string. change Ascii.eqb with Ascii.eqb.
  change (Ascii.Ascii true false true true false true false false) with "-"%char.
  rewrite Hm. unfold NilZero.uint_of_string. cbn [NilEmpty.uint_of_string].
  rewrite (not_digit_no_number c _ Hd). reflexivity.
Qed.

Lemma getUserWithId_by_text d log v s :
  Pg.prepare v = Some s ->
  getUserWithId Pg.query v (mkWorld d log) =
  match Pg.int_of_text s with
  | Pg.Fail e => (mkWorld d (log ++ [message e])%list, Fulfilled VNull)
  | Pg.Ok i =>
      match filter (fun u => Pg.user_id u = i) (Pg.users d) with
      | [] => (mkWorld d (log ++ ["Invalid user id"])%list, Fulfilled VNull)
      | u :: _ => (mkWorld d log, Fulfilled (VRow (Pg.RUser u)))
      end
  end.
Proof.
  intros Hs. unfold getUserWithId. rewrite first_or_throw_settles. cbn [db console].
  rewrite getUserWithId_query.
  unfold Pg.run_select_user_by_id, Pg.int_param, Pg.param.
  cbn [lookup list_lookup Nat.sub Pg.res_bind]. rewrite Hs.
  destruct (Pg.int_of_text s) as [i|e]; [|reflexivity].
  cbn [Pg.res_bind Pg.settle].
  destruct (filter _ (Pg.users d)); reflexivity.
Qed.

Lemma getUserWithId_no_value d log v :
  Pg.prepare v = None ->
  getUserWithId Pg.query v (mkWorld d log)
  = (mkWorld d (log ++ ["Invalid user id"])%list, Fulfilled VNull).
Proof.
  intros Hs. unfold getUserWithId. rewrite first_or_throw_settles. cbn [db console].
  rewrite getUserWithId_query.
  unfold Pg.run_select_user_by_id, Pg.int_param, Pg.param.
  cbn [lookup list_lookup Nat.sub Pg.res_bind]. rewrite Hs. reflexivity.
Qed.

(** X7.  [getUserWithId] against the tables.  For an id that is an
    integer of the column's range, given as a number or as its decimal
    digits, the first row with that id is returned and nothing logged, or
    [null] after 'Invalid user id' when no row has it.  For [null] and
    [undefined] the result is [null] after 'Invalid user id'.  For a text
    that does not start like a number the database refuses the
    statement: one line is logged and [null] returned.  The database is
    unchanged in every case. *)
Theorem X7_getUserWithId_outcomes d log i
    (Hrange : int4 i) :
  let found :=
    match filter (fun u => Pg.user_id u = i) (Pg.users d) with
    | [] => (mkWorld d (log ++ ["Invalid user id"])%list, Fulfilled VNull)
    | u :: _ => (mkWorld d log, Fulfilled (VRow (Pg.RUser u)))
    end in
  getUserWithId Pg.query (JNum i) (mkWorld d log) = found /\
  getUserWithId Pg.query (JStr (dec i)) (mkWorld d log) = found /\
  getUserWithId Pg.query JNull (mkWorld d log)
  = (mkWorld d (log ++ ["Invalid user id"])%list, Fulfilled VNull) /\
  getUserWithId Pg.query JUndefined (mkWorld d log)
  = (mkWorld d (log ++ ["Invalid user id"])%list, Fulfilled VNull) /\
  forall s, starts_like_number s = false ->
            exists line,
              getUserWithId Pg.query (JStr s) (mkWorld d log)
              = (mkWorld d (log ++ [line])%list, Fulfilled VNull).
Proof.
  cbv zeta. split; [|split; [|split; [|split]]].
  - rewrite (getUserWithId_by_text d log (JNum i) (dec i) eq_refl), int_of_text_dec.
    reflexivity.
  - rewrite (getUserWithId_by_text d log (JStr (dec i)) (dec i) eq_refl), int_of_text_dec.
    reflexivity.
  - apply getUserWithId_no_value. reflexivity.
  - apply getUserWithId_no_value. reflexivity.
  - intros s Hs. destruct (int_of_text_refuses s Hs) as [e He].
    exists (message e).
    rewrite (getUserWithId_by_text d log (JStr s) s eq_refl), He. reflexivity.
Qed.

Lemma X7_witness :
  getUserWithId Pg.query (JNum 1) (mkWorld sample_db [])
  = (mkWorld sample_db [],
     Fulfilled (VRow (Pg.RUser (Pg.mkUser 1 "Ann" "ann@example.com" "secret")))) /\
  getUserWithId Pg.query (JStr "7") (mkWorld sample_db [])
  = (mkWorld sample_db ["Invalid user id"], Fulfilled VNull).
Proof.
  assert (H1 : int4 1) by (unfold int4; lia).
  assert (H7 : int4 7) by (unfold int4; lia).
  split.
  - exact (proj1 (X7_getUserWithId_outcomes sample_db [] 1 H1)).
  - exact (proj1 (proj2 (X7_getUserWithId_outcomes sample_db [] 7 H7))).
Defined.

Lemma select_by_id_absent i (us : list Pg.User) :
  i ∉ map Pg.user_id us -> filter (fun u => Pg.user_id u = i) us = [].
Proof.
  induction us as [|u us IH]; [reflexivity|]. cbn [map]. intros H.
  apply not_elem_of_cons in H as [Hne Hnot].
  rewrite filter_cons_False by congruence. apply IH, Hnot.
Qed.

Lemma bounded_id_fresh (us : list Pg.User) s :
  Forall (fun u => Pg.user_id u <= s) us -> s + 1 ∉ map Pg.user_id us.
Proof.
  intros H Hin. apply list_elem_of_fmap in Hin as (u & Hu & Hin).
  rewrite Forall_forall in H. specialize (H u Hin). lia.
Qed.

(** What INSERT INTO users leaves behind: the table as it was, with at
    most the new row after it, and the sequence one step further. *)
Lemma run_insert_user_users d params :
  let r := Pg.run_insert_user d params in
  Pg.users_id_seq r.1 = Pg.users_id_seq d + 1 /\
  Pg.properties r.1 = Pg.properties d /\
  Pg.property_reviews r.1 = Pg.property_reviews d /\
  match r.2 with
  | Pg.Ok rows =>
      exists u, rows = [Pg.RUser u] /\ Pg.user_id u = Pg.users_id_seq d + 1 /\
                Pg.users r.1 = (Pg.users d ++ [u])%list
  | Pg.Fail _ => Pg.users r.1 = Pg.users d
  end.
Proof.
  unfold Pg.run_insert_user. cbv zeta.
  match goal with |- context [match ?c with Pg.Ok _ => _ | Pg.Fail _ => _ end] =>
    destruct c as [u|e] eqn:Hc end; cbn [fst snd Pg.users Pg.users_id_seq Pg.properties
                                          Pg.property_reviews].
  - repeat split. exists u. repeat split.
    destruct (Pg.param params 1) as [n|]; [|discriminate].
    destruct (Pg.param params 2) as [p|]; [|discriminate].
    destruct (Pg.param params 3) as [e|]; [|discriminate].
    cbn [Pg.res_bind] in Hc.
    destruct (Pg.not_null "name" n); [|discriminate].
    destruct (Pg.not_null "password" p); [|discriminate].
    destruct (Pg.not_null "email" e); [|discriminate].
    cbn [Pg.res_bind] in Hc. destruct (bool_decide _); [discriminate|].
    injection Hc as <-. reflexivity.
  - repeat split.
Qed.

(** X8.  Whatever the user object, [addUser] keeps the identifiers of
    [users] distinct and within the sequence, and never removes or
    alters a row: the table afterwards is the table before, followed by
    the new row when one was inserted; properties and reviews are
    untouched. *)
Theorem X8_addUser_only_appends d log user
    (Hids : ids_in_sequence d) :
  let w' := (addUser Pg.query user (mkWorld d log)).1 in
  ids_in_sequence (db w') /\
  (Pg.users (db w') = Pg.users d \/
   exists u, Pg.users (db w') = (Pg.users d ++ [u])%list /\
             (addUser Pg.query user (mkWorld d log)).2 = Fulfilled (VRow (Pg.RUser u))) /\
  Pg.properties (db w') = Pg.properties d /\
  Pg.property_reviews (db w') = Pg.property_reviews d.
Proof.
  cbv zeta. rewrite addUser_settles. cbn [db console]. rewrite addUser_query.
  destruct Hids as [Hnodup Hbound].
  pose proof (run_insert_user_users d (addUser_statement user).2) as (Hseq & Hp & Hr & Hu).
  cbv zeta in Hseq, Hp, Hr, Hu.
  destruct (Pg.run_insert_user d (addUser_statement user).2) as [d' [rows|e]];
    cbn [fst snd Pg.settle db] in *.
  - destruct Hu as (u & -> & Hid & Hus). cbn [first_row]. split; [|split; [|split]].
    + unfold ids_in_sequence. rewrite Hus, Hseq. split.
      * rewrite map_app. cbn [map]. apply NoDup_app. split; [exact Hnodup|].
        split; [|apply NoDup_singleton].
        intros x Hx Hx'. apply list_elem_of_singleton in Hx'. subst x. rewrite Hid in Hx.
        exact (bounded_id_fresh _ _ Hbound Hx).
      * apply Forall_app. split.
        -- eapply Forall_impl; [exact Hbound|]. intros; cbn beta in *; lia.
        -- constructor; [lia | constructor].
    + right. exists u. split; [exact Hus | reflexivity].
    + exact Hp.
    + exact Hr.
  - split; [|split; [|split]].
    + unfold ids_in_sequence. rewrite Hu, Hseq. split; [exact Hnodup|].
      eapply Forall_impl; [exact Hbound|]. intros; cbn beta in *; lia.
    + left. exact Hu.
    + exact Hp.
    + exact Hr.
Qed.

Lemma sample_ids_in_sequence : ids_in_sequence sample_db.
Proof.
  split.
  - cbn. apply NoDup_singleton.
  - cbn. repeat constructor. cbn. lia.
Defined.

Lemma X8_witness :
  ids_in_sequence sample_db /\
  ids_in_sequence (db (addUser Pg.query no_password (mkWorld sample_db [])).1) /\
  Pg.users (db (addUser Pg.query no_password (mkWorld sample_db [])).1) = Pg.users sample_db.
Proof.
  split; [exact sample_ids_in_sequence | ].
  pose proof (X8_addUser_only_appends sample_db [] no_password sample_ids_in_sequence)
    as (H1 & _ & _ & _).
  split; [exact H1 | reflexivity].
Defined.

Lemma select_by_id_fresh i (us : list Pg.User) u :
  i ∉ map Pg.user_id us -> Pg.user_id u = i ->
  filter (fun u => Pg.user_id u = i) (us ++ [u])%list = [u].
Proof.
  intros Habs Hu. rewrite filter_app, (select_by_id_absent i us Habs).
  cbn [app]. rewrite filter_cons_True by exact Hu. reflexivity.
Qed.

Lemma addUser_inserts d (user : gmap string JsVal) (name password email : string) :
  user !! "name" = Some (JStr name) ->
  user !! "password" = Some (JStr password) ->
  user !! "email" = Some (JStr email) ->
  email ∉ map Pg.user_email (Pg.users d) ->
  Pg.run_insert_user d (addUser_statement user).2
  = (Pg.mkDatabase
       (Pg.users d ++ [Pg.mkUser (Pg.users_id_seq d + 1) name email password])%list
       (Pg.users_id_seq d + 1) (Pg.properties d) (Pg.property_reviews d),
     Pg.Ok [Pg.RUser (Pg.mkUser (Pg.users_id_seq d + 1) name email password)]).
Proof.
  intros Hname Hpassword Hemail Hfresh.
  unfold addUser_statement. cbn [snd].
  rewrite !lookup_total_alt, Hname, Hpassword, Hemail. cbn [default from_option id].
  unfold Pg.run_insert_user, Pg.param.
  cbn [lookup list_lookup Nat.sub id Pg.prepare to_string Pg.res_bind Pg.not_null].
  rewrite bool_decide_eq_false_2 by exact Hfresh. reflexivity.
Qed.

(** X9.  The row [addUser] returns can be fetched by its id: for a user
    object with string name, password and email, an email no row
    carries, and identifiers within the sequence, the id of the new row
    is one no row had, and [getUserWithId] with that id, run next,
    returns the very row [addUser] returned. *)
Theorem X9_added_user_is_found_by_id d log (user : gmap string JsVal)
    (name password email : string)
    (Hname : user !! "name" = Some (JStr name))
    (Hpassword : user !! "password" = Some (JStr password))
    (Hemail : user !! "email" = Some (JStr email))
    (Hfresh : email ∉ map Pg.user_email (Pg.users d))
    (Hids : ids_in_sequence d) :
  exists u w1,
    addUser Pg.query user (mkWorld d log) = (w1, Fulfilled (VRow (Pg.RUser u))) /\
    (Pg.user_id u ∉ map Pg.user_id (Pg.users d)) /\
    getUserWithId Pg.query (JNum (Pg.user_id u)) w1 = (w1, Fulfilled (VRow (Pg.RUser u))).
Proof.
  destruct Hids as [_ Hbound].
  pose proof (bounded_id_fresh _ _ Hbound) as Hnew.
  eexists _, _. split; [|split].
  - rewrite addUser_settles. cbn [db console]. rewrite addUser_query.
    rewrite (addUser_inserts d user name password email Hname Hpassword Hemail Hfresh).
    reflexivity.
  - exact Hnew.
  - unfold getUserWithId. rewrite first_or_throw_settles. cbn [db console].
    rewrite getUserWithId_query.
    unfold Pg.run_select_user_by_id, Pg.int_param, Pg.param.
    cbn [lookup list_lookup Nat.sub Pg.res_bind Pg.prepare to_string Pg.user_id].
    rewrite int_of_text_dec. cbn [Pg.res_bind Pg.settle Pg.users fst snd].
    rewrite (select_by_id_fresh _ (Pg.users d)
               (Pg.mkUser (Pg.users_id_seq d + 1) name email password) Hnew eq_refl).
    reflexivity.
Qed.

Lemma X9_witness :
  exists u w1,
    addUser Pg.query new_user (mkWorld sample_db []) = (w1, Fulfilled (VRow (Pg.RUser u))) /\
    (Pg.user_id u ∉ map Pg.user_id (Pg.users sample_db)) /\
    getUserWithId Pg.query (JNum (Pg.user_id u)) w1 = (w1, Fulfilled (VRow (Pg.RUser u))).
Proof.
  apply (X9_added_user_is_found_by_id sample_db [] new_user "Bob" "hunter2" "bob@example.com");
    try reflexivity.
  - intros Hin. apply list_elem_of_singleton in Hin. discriminate Hin.
  - exact sample_ids_in_sequence.
Defined.

Lemma filter_app_head {A} (P : A -> Prop) `{forall x, Decision (P x)} (l l' : list A) x :
  head (filter P l) = Some x -> head (filter P (l ++ l')%list) = Some x.
Proof.
  rewrite filter_app. destruct (filter P l); [discriminate | intros H'; exact H'].
Qed.

Lemma getUserWithEmail_found d log (email : string) :
  getUserWithEmail Pg.query (JStr email) (mkWorld d log) =
  match head (filter (fun u => Pg.user_email u = email) (Pg.users d)) with
  | Some u => (mkWorld d log, Fulfilled (VRow (Pg.RUser u)))
  | None => (mkWorld d (log ++ ["Invalid email address"])%list, Fulfilled VNull)
  end.
Proof.
  rewrite getUserWithEmail_settles. cbn [db console]. rewrite getUserWithEmail_query.
  destruct (filter _ (Pg.users d)); reflexivity.
Qed.

(** X10.  [addUser] does not disturb the users already there: whatever
    the user object and whatever its outcome, an email that
    [getUserWithEmail] found before is found afterwards, with the same
    row. *)
Theorem X10_addUser_keeps_existing_lookups d log log' user (email : string) w0 r
    (Hfound : getUserWithEmail Pg.query (JStr email) (mkWorld d log)
              = (w0, Fulfilled (VRow r))) :
  let w1 := (addUser Pg.query user (mkWorld d log')).1 in
  getUserWithEmail Pg.query (JStr email) w1 = (w1, Fulfilled (VRow r)).
Proof.
  cbv zeta. rewrite getUserWithEmail_found in Hfound.
  destruct (head (filter _ (Pg.users d))) as [u0|] eqn:Hhead; [|discriminate].
  injection Hfound as _ <-.
  assert (Hkeep : head (filter (fun u => Pg.user_email u = email)
                    (Pg.users (db (addUser Pg.query user (mkWorld d log')).1))) = Some u0).
  { rewrite addUser_settles. cbn [db console]. rewrite addUser_query.
    pose proof (run_insert_user_users d (addUser_statement user).2) as (_ & _ & _ & Hu).
    cbv zeta in Hu.
    destruct (Pg.run_insert_user d (addUser_statement user).2) as [d' [rows|e]];
      cbn [fst snd Pg.settle db] in *.
    - destruct Hu as (u & _ & _ & ->). apply filter_app_head, Hhead.
    - rewrite Hu. exact Hhead. }
  destruct (addUser Pg.query user (mkWorld d log')).1 as [d1 log1].
  rewrite getUserWithEmail_found. cbn [db] in Hkeep. rewrite Hkeep. reflexivity.
Qed.

Lemma X10_witness :
  getUserWithEmail Pg.query (JStr "ann@example.com")
    (addUser Pg.query new_user (mkWorld sample_db [])).1
  = ((addUser Pg.query new_user (mkWorld sample_db [])).1,
     Fulfilled (VRow (Pg.RUser (Pg.mkUser 1 "Ann" "ann@example.com" "secret")))).
Proof.
  exact (X10_addUser_keeps_existing_lookups sample_db [] [] new_user "ann@example.com"
           (mkWorld sample_db []) _ eq_refl).
Defined.

(** ** Reads leave the database alone *)

Lemma query_keeps_database text values d :
  Pg.parse text <> Pg.Ok Pg.InsertUser -> (Pg.query text values d).1 = d.
Proof.
  intros H. unfold Pg.query. destruct (Pg.parse text) as [[| | |conds having limit]|e];
    try reflexivity; [| | contradiction | ]; destruct (negb _); reflexivity.
Qed.

Lemma search_is_not_insert options limit :
  Pg.parse (build_statement options limit).1 <> Pg.Ok Pg.InsertUser.
Proof. by_filters options limit; vm_compute; discriminate. Qed.

(** X11.  The three reading operations never change the database:
    whatever the argument, the options and the limit, the tables after
    [getUserWithEmail], [getUserWithId] and [getAllProperties] are the
    tables before. *)
Theorem X11_reads_keep_database d log :
  (forall email, db (getUserWithEmail Pg.query email (mkWorld d log)).1 = d) /\
  (forall id, db (getUserWithId Pg.query id (mkWorld d log)).1 = d) /\
  (forall options limit, db (getAllProperties Pg.query options limit (mkWorld d log)).1 = d).
Proof.
  split; [|split]; intros.
  - destruct (first_or_throw_effects Pg.query (getUserWithEmail_statement email)
                "Invalid email address" (mkWorld d log)) as (v & _ & H & _).
    unfold getUserWithEmail. rewrite H. reflexivity.
  - destruct (first_or_throw_effects Pg.query (getUserWithId_statement id)
                "Invalid user id" (mkWorld d log)) as (v & _ & H & _).
    unfold getUserWithId. rewrite H. reflexivity.
  - destruct (all_rows_effects Pg.query (build_statement options limit) VUndefined
                (mkWorld d log)) as (v & _ & H & _).
    unfold getAllProperties. rewrite H.
    apply query_keeps_database, search_is_not_insert.
Qed.

(** ** More on the search *)

(** A statement [getAllProperties] builds is either refused or read as
    a search whose LIMIT carries the last placeholder. *)
Lemma search_statement_shape options limit :
  (exists e, Pg.parse (build_statement options limit).1 = Pg.Fail e) \/
  exists conds having lim,
    Pg.parse (build_statement options limit).1 = Pg.Ok (Pg.SelectListings conds having lim) /\
    (build_statement options limit).2 !! (lim - 1)%nat = Some (default_arg limit (JNum 10)).
Proof.
  by_filters options limit;
    first [ left; eexists; vm_compute; reflexivity
          | right; eexists _, _, _; split; [vm_compute; reflexivity | reflexivity] ].
Qed.

(** The rows of a search the database accepts, in full. *)
Lemma search_fulfilled_rows d d' text values conds having limit rows :
  Pg.parse text = Pg.Ok (Pg.SelectListings conds having limit) ->
  Pg.query text values d = (d', Fulfilled rows) ->
  exists wh hv n,
    Pg.res_all (Pg.cond_pred values) conds = Pg.Ok wh /\
    Pg.having_pred values having = Pg.Ok hv /\
    Pg.limit_count values limit = Pg.Ok n /\
    rows = map (fun g => Pg.RListing g.1 g.2)
             (Pg.take_limit n (Pg.order_by_cost
                (filter (fun g => hv g.2)
                   (omap (Pg.listing d)
                      (filter (fun p => Pg.holds_all wh p) (Pg.properties d)))))).
Proof.
  intros Hp Hq. unfold Pg.query in Hq. rewrite Hp in Hq.
  destruct (negb _); [discriminate|].
  unfold Pg.run_search in Hq.
  destruct (Pg.res_all (Pg.cond_pred values) conds) as [wh|e]; [|discriminate].
  destruct (Pg.having_pred values having) as [hv|e]; [|discriminate].
  destruct (Pg.limit_count values limit) as [n|e]; [|discriminate].
  cbn [Pg.res_bind Pg.settle] in Hq. injection Hq as _ <-.
  exists wh, hv, n. repeat split.
Qed.

(** What [getAllProperties] was fulfilled with, when it is a list. *)
Lemma getAllProperties_rows options limit d log w' rows :
  getAllProperties Pg.query options limit (mkWorld d log) = (w', Fulfilled (VRows rows)) ->
  exists conds having lim d',
    Pg.parse (build_statement options limit).1 = Pg.Ok (Pg.SelectListings conds having lim) /\
    (build_statement options limit).2 !! (lim - 1)%nat = Some (default_arg limit (JNum 10)) /\
    Pg.query (build_statement options limit).1 (build_statement options limit).2 d
    = (d', Fulfilled rows).
Proof.
  intros Hrun. unfold getAllProperties in Hrun. rewrite all_rows_settles in Hrun.
  cbn [db console] in Hrun.
  destruct (Pg.query _ _ d) as [d' [rows'|e]] eqn:Hq; [|discriminate].
  injection Hrun as _ <-.
  destruct (search_statement_shape options limit) as [[e He] | (conds & having & lim & Hp & Hl)].
  - rewrite (parse_rejected _ _ d e He) in Hq. discriminate.
  - exists conds, having, lim, d'. repeat split; assumption.
Qed.

Lemma listing_average d p g :
  Pg.listing d p = Some g -> g = (p, Pg.average (Pg.ratings_of d p)) /\ Pg.ratings_of d p <> [].
Proof.
  unfold Pg.listing. destruct (Pg.ratings_of d p) eqn:Hr; [discriminate|].
  intros H. injection H as <-. split; [reflexivity | discriminate].
Qed.

(** X12.  A property without a review is never returned, whatever the
    options and the limit: every row of the list is a property of the
    table, with an average rating, and the table of reviews holds at
    least one review of that property. *)
Theorem X12_only_reviewed_properties options limit d log w' rows
    (Hrun : getAllProperties Pg.query options limit (mkWorld d log)
            = (w', Fulfilled (VRows rows))) :
  Forall (fun r => exists p avg,
            r = Pg.RListing p avg /\
            p ∈ Pg.properties d /\
            exists review, review ∈ Pg.property_reviews d /\
                           Pg.property_id review = Pg.id p) rows.
Proof.
  destruct (getAllProperties_rows _ _ _ _ _ _ Hrun) as (conds & having & lim & d' & Hp & _ & Hq).
  destruct (search_fulfilled_rows _ _ _ _ _ _ _ _ Hp Hq) as (wh & hv & n & _ & _ & _ & ->).
  apply Forall_map, Forall_forall. intros g Hg. cbn beta.
  apply take_limit_elem in Hg. rewrite order_by_cost_perm in Hg.
  apply list_elem_of_filter in Hg as [_ Hg].
  apply list_elem_of_omap in Hg as (p & Hin & Hl).
  apply list_elem_of_filter in Hin as [_ Hin].
  apply listing_average in Hl as [-> Hne]. exists p, (Pg.average (Pg.ratings_of d p)).
  cbn [fst snd]. split; [reflexivity | split; [exact Hin | ]].
  unfold Pg.ratings_of in Hne.
  destruct (filter _ (Pg.property_reviews d)) as [|review l] eqn:Hf; [contradiction|].
  assert (Hr : review ∈ filter (fun r => Pg.property_id r = Pg.id p) (Pg.property_reviews d))
    by (rewrite Hf; left).
  apply list_elem_of_filter in Hr as [Hid Hr]. exists review. split; assumption.
Qed.

Lemma X12_witness :
  Forall (fun r => exists p avg,
            r = Pg.RListing p avg /\
            p ∈ Pg.properties sample_db /\
            exists review, review ∈ Pg.property_reviews sample_db /\
                           Pg.property_id review = Pg.id p)
    [Pg.RListing (sample_property 2 1 10050 "vancouver") (3 # 1);
     Pg.RListing (sample_property 3 2 15000 "Toronto") (4 # 1);
     Pg.RListing (sample_property 1 1 25000 "Vancouver") (9 # 2)].
Proof.
  exact (X12_only_reviewed_properties ∅ JUndefined sample_db [] (mkWorld sample_db []) _
           eq_refl).
Defined.

Lemma limit_count_bound params k n m :
  params !! (k - 1)%nat = Some (JNum n) ->
  Pg.limit_count params k = Pg.Ok m -> m = Some (Z.to_nat n).
Proof.
  intros Hk. unfold Pg.limit_count, Pg.int_param, Pg.param. rewrite Hk.
  cbn [Pg.prepare to_string Pg.res_bind]. rewrite int_of_text_dec.
  cbn [Pg.res_bind]. destruct (n <? 0); [discriminate|]. intros H. injection H as <-.
  reflexivity.
Qed.

(** X13.  Whatever the filters, a list [getAllProperties] returns is in
    non-decreasing order of cost_per_night, and when the limit is a
    number (10 when omitted) it has at most that many rows. *)
Theorem X13_any_search_is_sorted_and_limited options limit n d log w' rows
    (Hlimit : default_arg limit (JNum 10) = JNum n)
    (Hrun : getAllProperties Pg.query options limit (mkWorld d log)
            = (w', Fulfilled (VRows rows))) :
  StronglySorted (fun a b => row_cost a <= row_cost b) rows /\
  (length rows <= Z.to_nat n)%nat.
Proof.
  destruct (getAllProperties_rows _ _ _ _ _ _ Hrun) as (conds & having & lim & d' & Hp & Hl & Hq).
  destruct (search_fulfilled_rows _ _ _ _ _ _ _ _ Hp Hq) as (wh & hv & m & _ & _ & Hm & ->).
  rewrite Hlimit in Hl. rewrite (limit_count_bound _ _ _ _ Hl Hm). cbn [Pg.take_limit].
  split.
  - apply (StronglySorted_map cost_le); [intros a b H; exact H|].
    apply StronglySorted_take, order_by_cost_sorted.
  - rewrite length_map, length_take. lia.
Qed.

Lemma X13_witness :
  StronglySorted (fun a b => row_cost a <= row_cost b)
    [Pg.RListing (sample_property 3 2 15000 "Toronto") (4 # 1);
     Pg.RListing (sample_property 1 1 25000 "Vancouver") (9 # 2)] /\
  (2 <= Z.to_nat 2)%nat.
Proof.
  exact (X13_any_search_is_sorted_and_limited
           (<["minimum_rating" := JStr "4"]> ∅) (JNum 2) 2 sample_db []
           (mkWorld sample_db []) _ eq_refl eq_refl).
Defined.

Lemma owner_condition options limit :
  truthy (options !!! "owner_id") = true ->
  (exists e, Pg.parse (build_statement options limit).1 = Pg.Fail e) \/
  exists conds having lim i,
    Pg.parse (build_statement options limit).1 = Pg.Ok (Pg.SelectListings conds having lim) /\
    Pg.OwnerIdEq i ∈ conds /\
    (build_statement options limit).2 !! (i - 1)%nat
      = Some (JStr (to_string (options !!! "owner_id"))).
Proof.
  by_filters options limit; intros; try discriminate;
    first [ left; eexists; vm_compute; reflexivity
          | right; eexists _, _, _, _; split; [vm_compute; reflexivity|];
            split; solve [repeat constructor] ].
Qed.

Lemma city_condition options limit :
  truthy (options !!! "city") = true ->
  (exists e, Pg.parse (build_statement options limit).1 = Pg.Fail e) \/
  exists conds having lim i,
    Pg.parse (build_statement options limit).1 = Pg.Ok (Pg.SelectListings conds having lim) /\
    Pg.CityLike i ∈ conds /\
    (build_statement options limit).2 !! (i - 1)%nat
      = Some (JStr ("%" +:+ to_string (options !!! "city") +:+ "%")).
Proof.
  by_filters options limit; intros; try discriminate;
    first [ left; eexists; vm_compute; reflexivity
          | right; eexists _, _, _, _; split; [vm_compute; reflexivity|];
            split; solve [repeat constructor] ].
Qed.

Lemma rating_condition options limit :
  truthy (options !!! "minimum_rating") = true ->
  (exists e, Pg.parse (build_statement options limit).1 = Pg.Fail e) \/
  exists conds lim k,
    Pg.parse (build_statement options limit).1
      = Pg.Ok (Pg.SelectListings conds (Some k) lim) /\
    (build_statement options limit).2 !! (k - 1)%nat
      = Some (JStr (to_string (options !!! "minimum_rating"))).
Proof.
  by_filters options limit; intros; try discriminate;
    first [ left; eexists; vm_compute; reflexivity
          | right; eexists _, _, _; split; [vm_compute; reflexivity | reflexivity] ].
Qed.

Lemma owner_pred params k s i :
  params !! (k - 1)%nat = Some (JStr s) -> Pg.int_of_text s = Pg.Ok i ->
  Pg.cond_pred params (Pg.OwnerIdEq k) = Pg.Ok (fun p => Pg.owner_id p =? i).
Proof.
  intros Hk Hs. unfold Pg.cond_pred, Pg.int_param, Pg.param. rewrite Hk.
  cbn [Pg.prepare to_string Pg.res_bind]. rewrite Hs. reflexivity.
Qed.

Lemma city_pred params k pat :
  params !! (k - 1)%nat = Some (JStr pat) -> Pg.like_pattern_ok pat = true ->
  Pg.cond_pred params (Pg.CityLike k) = Pg.Ok (fun p => Pg.like pat (Pg.city p)).
Proof.
  intros Hk Hok. unfold Pg.cond_pred, Pg.param. rewrite Hk.
  cbn [Pg.prepare to_string Pg.res_bind]. rewrite Hok. reflexivity.
Qed.

Lemma wildcards_pattern_ok x :
  plain x = true -> Pg.like_pattern_ok ("%" +:+ x +:+ "%") = true.
Proof.
  intros Hx. change ("%" +:+ x +:+ "%") with (String "%" (x +:+ "%")).
  cbn [Pg.like_pattern_ok]. change (("%" =? "\")%char) with false. cbn beta iota.
  rewrite (like_pattern_ok_plain x "%" Hx). reflexivity.
Qed.

(** X14.  The owner filter keeps only the owner's properties: when
    [options.owner_id] is present and reads as the integer [i], every row
    of a list [getAllProperties] returns has owner_id [i]. *)
Theorem X14_owner_filter_keeps_owner options limit d log w' rows i
    (Howner : truthy (options !!! "owner_id") = true)
    (Hi : Pg.int_of_text (to_string (options !!! "owner_id")) = Pg.Ok i)
    (Hrun : getAllProperties Pg.query options limit (mkWorld d log)
            = (w', Fulfilled (VRows rows))) :
  Forall (fun r => exists p avg, r = Pg.RListing p avg /\ Pg.owner_id p = i) rows.
Proof.
  destruct (getAllProperties_rows _ _ _ _ _ _ Hrun) as (_ & _ & _ & d' & _ & _ & Hq).
  destruct (owner_condition options limit Howner)
    as [[e He] | (conds & having & lim & k & Hp & Hk & Hv)].
  - rewrite (parse_rejected _ _ d e He) in Hq. discriminate.
  - pose proof (search_rows_satisfy d d' _ _ conds having lim rows _ _ Hp Hq Hk
                  (owner_pred _ k _ i Hv Hi)) as Hall.
    eapply Forall_impl; [exact Hall|]. intros r (p & avg & -> & _ & Ho).
    exists p, avg. split; [reflexivity | apply Z.eqb_eq, Ho].
Qed.

Lemma X14_witness :
  Forall (fun r => exists p avg, r = Pg.RListing p avg /\ Pg.owner_id p = 1)
    [Pg.RListing (sample_property 2 1 10050 "vancouver") (3 # 1);
     Pg.RListing (sample_property 1 1 25000 "Vancouver") (9 # 2)].
Proof.
  exact (X14_owner_filter_keeps_owner my_listings JUndefined sample_db []
           (mkWorld sample_db []) _ 1 eq_refl eq_refl eq_refl).
Defined.

(** X15.  The city filter keeps only cities that hold the text: when
    [options.city] is present and its text [x] holds none of [%], [_]
    and backslash, the city of every row of a list [getAllProperties]
    returns contains [x] as it is written, whatever the other options. *)
Theorem X15_city_filter_keeps_substring options limit d log w' rows
    (Hcity : truthy (options !!! "city") = true)
    (Hplain : plain (to_string (options !!! "city")) = true)
    (Hrun : getAllProperties Pg.query options limit (mkWorld d log)
            = (w', Fulfilled (VRows rows))) :
  Forall (fun r => exists p avg a b,
            r = Pg.RListing p avg /\
            Pg.city p = a +:+ to_string (options !!! "city") +:+ b) rows.
Proof.
  destruct (getAllProperties_rows _ _ _ _ _ _ Hrun) as (_ & _ & _ & d' & _ & _ & Hq).
  destruct (city_condition options limit Hcity)
    as [[e He] | (conds & having & lim & k & Hp & Hk & Hv)].
  - rewrite (parse_rejected _ _ d e He) in Hq. discriminate.
  - pose proof (search_rows_satisfy d d' _ _ conds having lim rows _ _ Hp Hq Hk
                  (city_pred _ k _ Hv (wildcards_pattern_ok _ Hplain))) as Hall.
    eapply Forall_impl; [exact Hall|]. intros r (p & avg & -> & _ & Hl).
    apply (like_substring _ _ Hplain) in Hl as (a & b & Hc).
    exists p, avg, a, b. split; [reflexivity | exact Hc].
Qed.

Lemma X15_witness :
  Forall (fun r => exists p avg a b,
            r = Pg.RListing p avg /\
            Pg.city p = a +:+ to_string (city_option (JStr "couver") !!! "city") +:+ b)
    [Pg.RListing (sample_property 2 1 10050 "vancouver") (3 # 1);
     Pg.RListing (sample_property 1 1 25000 "Vancouver") (9 # 2)].
Proof.
  exact (X15_city_filter_keeps_substring (city_option (JStr "couver")) JUndefined sample_db []
           (mkWorld sample_db []) _ eq_refl eq_refl eq_refl).
Defined.

Lemma having_pred_rating params k s q :
  params !! (k - 1)%nat = Some (JStr s) -> Pg.numeric_of_text s = Pg.Ok q ->
  Pg.having_pred params (Some k) = Pg.Ok (fun avg => Qle_bool q avg).
Proof.
  intros Hk Hs. unfold Pg.having_pred, Pg.numeric_param, Pg.param. rewrite Hk.
  cbn [Pg.prepare to_string Pg.res_bind]. rewrite Hs. reflexivity.
Qed.

(** X16.  The rating filter keeps only well-rated properties: when
    [options.minimum_rating] is present and reads as the number [q],
    every row of a list [getAllProperties] returns has an average_rating
    of at least [q], the bound included. *)
Theorem X16_rating_filter_keeps_rated options limit d log w' rows q
    (Hrating : truthy (options !!! "minimum_rating") = true)
    (Hq : Pg.numeric_of_text (to_string (options !!! "minimum_rating")) = Pg.Ok q)
    (Hrun : getAllProperties Pg.query options limit (mkWorld d log)
            = (w', Fulfilled (VRows rows))) :
  Forall (fun r => exists p avg, r = Pg.RListing p avg /\ (q <= avg)%Q) rows.
Proof.
  destruct (getAllProperties_rows _ _ _ _ _ _ Hrun) as (_ & _ & _ & d' & _ & _ & Hrows).
  destruct (rating_condition options limit Hrating)
    as [[e He] | (conds & lim & k & Hp & Hv)].
  - rewrite (parse_rejected _ _ d e He) in Hrows. discriminate.
  - destruct (search_fulfilled_rows _ _ _ _ _ _ _ _ Hp Hrows)
      as (wh & hv & n & _ & Hh & _ & ->).
    rewrite (having_pred_rating _ k _ q Hv Hq) in Hh. injection Hh as <-.
    apply Forall_map, Forall_forall. intros g Hg. cbn beta.
    apply take_limit_elem in Hg. rewrite order_by_cost_perm in Hg.
    apply list_elem_of_filter in Hg as [Hge _].
    exists g.1, g.2. split; [reflexivity | apply Qle_bool_iff, Is_true_true, Hge].
Qed.

Lemma X16_witness :
  Forall (fun r => exists p avg, r = Pg.RListing p avg /\ (45 # 10 <= avg)%Q)
    [Pg.RListing (sample_property 1 1 25000 "Vancouver") (9 # 2)].
Proof.
  exact (X16_rating_filter_keeps_rated well_rated JUndefined sample_db []
           (mkWorld sample_db []) _ (45 # 10) eq_refl eq_refl eq_refl).
Defined.

Lemma limit_count_null params k :
  params !! (k - 1)%nat = Some JNull -> Pg.limit_count params k = Pg.Ok None.
Proof.
  intros Hk. unfold Pg.limit_count, Pg.int_param, Pg.param. rewrite Hk. reflexivity.
Qed.

Lemma filter_all {A} (P : A -> Prop) `{forall x, Decision (P x)} (l : list A) :
  (forall x, P x) -> filter P l = l.
Proof.
  intros HP. induction l as [|x l IH]; [reflexivity|].
  rewrite filter_cons_True by apply HP. rewrite IH. reflexivity.
Qed.

(** X17.  [null] as the limit lifts the cap, where an omitted limit
    caps at 10: with no filter present and the limit [null], the list
    holds every property of the table that has a review, each once with
    its average rating, in non-decreasing order of cost_per_night. *)
Theorem X17_null_limit_returns_everything options d log
    (Hnone : Forall (fun k => truthy (options !!! k) = false) filter_keys) :
  exists groups,
    getAllProperties Pg.query options JNull (mkWorld d log)
    = (mkWorld d log, Fulfilled (VRows (map (fun g => Pg.RListing g.1 g.2) groups))) /\
    groups ≡ₚ omap (Pg.listing d) (Pg.properties d) /\
    StronglySorted cost_le groups.
Proof.
  eexists. split; [|split].
  - apply (getAllProperties_fulfilled Pg.query options JNull (mkWorld d log) d).
    rewrite (no_filter_statement options JNull Hnone). cbn [fst snd db default_arg].
    rewrite (query_search unfiltered_sql [JNull] d [] None 1 unfiltered_parse eq_refl).
    erewrite run_search_rows; [reflexivity | reflexivity | reflexivity | ].
    apply limit_count_null. reflexivity.
  - cbn [Pg.take_limit Pg.holds_all forallb]. rewrite order_by_cost_perm.
    rewrite !filter_all by (intros; exact I). reflexivity.
  - apply order_by_cost_sorted.
Qed.

Lemma X17_witness :
  exists groups,
    getAllProperties Pg.query ∅ JNull (mkWorld sample_db [])
    = (mkWorld sample_db [], Fulfilled (VRows (map (fun g => Pg.RListing g.1 g.2) groups))) /\
    groups ≡ₚ omap (Pg.listing sample_db) (Pg.properties sample_db) /\
    StronglySorted cost_le groups.
Proof.
  apply (X17_null_limit_returns_everything ∅ sample_db []). repeat constructor.
Defined.

(** ** Reservations *)

Lemma getAllReservations_query d guest limit :
  Bookings.query (getAllReservations_statement guest limit).1
                 (getAllReservations_statement guest limit).2 d
  = (d, Pg.settle (Bookings.run_reservations d [guest; default_arg limit (JNum 10)])).
Proof. reflexivity. Qed.

Lemma insert_by_start_perm x l : Bookings.insert_by_start x l ≡ₚ x :: l.
Proof.
  induction l as [|y l IH]; simpl; [reflexivity|].
  destruct (_ <=? _); [reflexivity|].
  rewrite IH. apply Permutation_swap.
Qed.

Lemma order_by_start_perm l : Bookings.order_by_start l ≡ₚ l.
Proof.
  induction l as [|x l IH]; simpl; [reflexivity|].
  rewrite insert_by_start_perm, IH. reflexivity.
Qed.

Lemma insert_by_start_sorted x l :
  StronglySorted start_le l -> StronglySorted start_le (Bookings.insert_by_start x l).
Proof.
  induction 1 as [|y l Hs IH Hall]; simpl.
  - repeat constructor.
  - destruct (Z.leb_spec (Bookings.start_date (Bookings.stay_reservation x))
                         (Bookings.start_date (Bookings.stay_reservation y))) as [Hle|Hgt].
    + constructor; [constructor; assumption|].
      constructor; [exact Hle|].
      eapply Forall_impl; [exact Hall|]. unfold start_le. intros z Hz. lia.
    + constructor; [exact IH|].
      rewrite insert_by_start_perm. constructor; [unfold start_le; lia | exact Hall].
Qed.

Lemma order_by_start_sorted l : StronglySorted start_le (Bookings.order_by_start l).
Proof.
  induction l as [|x l IH]; simpl; [constructor | apply insert_by_start_sorted, IH].
Qed.

(** What a group of the join is made of. *)
Lemma stays_of_elem d r st :
  st ∈ Bookings.stays_of d r ->
  Bookings.stay_reservation st = r /\
  Bookings.stay_property st ∈ Pg.properties (Bookings.listings d) /\
  Pg.id (Bookings.stay_property st) = Bookings.property_id r /\
  Pg.ratings_of (Bookings.listings d) (Bookings.stay_property st) <> [] /\
  Bookings.stay_rating st
  = Pg.average (Pg.ratings_of (Bookings.listings d) (Bookings.stay_property st)).
Proof.
  unfold Bookings.stays_of. intros H. apply list_elem_of_omap in H as (p & Hp & H).
  destruct (bool_decide_reflect (Bookings.property_id r = Pg.id p)) as [Hid|]; [|discriminate].
  destruct (Pg.ratings_of (Bookings.listings d) p) eqn:Hr; [discriminate|].
  injection H as <-. cbn. rewrite Hr. repeat split; try assumption; congruence.
Qed.

Lemma guest_param guest limit s g :
  Pg.prepare guest = Some s -> Pg.int_of_text s = Pg.Ok g ->
  Pg.int_param [guest; limit] 1 = Pg.Ok (Some g).
Proof.
  intros Hs Hg. unfold Pg.int_param, Pg.param. cbn [lookup list_lookup Nat.sub].
  rewrite Hs. cbn [Pg.res_bind]. rewrite Hg. reflexivity.
Qed.

(** X18.  The reservations of a guest: when the guest id reads as an
    integer [g] of the column's range and the limit is an integer [n]
    from 0 to the largest bigint (10 when omitted), [getAllReservations]
    logs nothing, leaves the database as it is, and returns at most [n]
    rows in non-decreasing order of start_date; each row is a
    reservation of guest [g] with the property it reserves and an
    average rating, and that property has a review. *)
Theorem X18_reservations_of_guest d log guest limit s g n
    (Hguest : Pg.prepare guest = Some s)
    (Hg : Pg.int_of_text s = Pg.Ok g)
    (Hgrange : int4 g)
    (Hlimit : default_arg limit (JNum 10) = JNum n)
    (Hn : 0 <= n <= bigint_max) :
  exists stays,
    getAllReservations Bookings.query guest limit (mkWorld d log)
    = (mkWorld d log, Fulfilled (VRows (map Bookings.row_of_stay stays))) /\
    (length stays <= Z.to_nat n)%nat /\
    StronglySorted start_le stays /\
    Forall (fun st =>
              Bookings.stay_reservation st ∈ Bookings.reservations d /\
              Bookings.guest_id (Bookings.stay_reservation st) = g /\
              Bookings.stay_property st ∈ Pg.properties (Bookings.listings d) /\
              Pg.id (Bookings.stay_property st)
              = Bookings.property_id (Bookings.stay_reservation st) /\
              exists review,
                review ∈ Pg.property_reviews (Bookings.listings d) /\
                Pg.property_id review = Pg.id (Bookings.stay_property st))
           stays.
Proof.
  destruct Hn as [Hn _].
  eexists. split; [|split; [|split]].
  - unfold getAllReservations. rewrite all_rows_settles. cbn [db console].
    rewrite getAllReservations_query, Hlimit. unfold Bookings.run_reservations.
    rewrite (guest_param guest (JNum n) s g Hguest Hg). cbn [Pg.res_bind].
    rewrite (limit_count_number [guest; JNum n] 2 n eq_refl Hn). reflexivity.
  - cbn [Pg.take_limit]. rewrite length_take. lia.
  - apply StronglySorted_take, order_by_start_sorted.
  - apply Forall_forall. intros st Hst.
    apply take_limit_elem in Hst. rewrite order_by_start_perm in Hst.
    apply list_elem_of_bind in Hst as (r & Hst & Hr).
    apply list_elem_of_filter in Hr as [Hgr Hr].
    apply stays_of_elem in Hst as (-> & Hp & Hid & Hne & _).
    repeat split; try assumption.
    unfold Pg.ratings_of in Hne.
    destruct (filter _ (Pg.property_reviews (Bookings.listings d)))
      as [|review l] eqn:Hf; [contradiction|].
    assert (Hrv : review ∈ filter (fun r => Pg.property_id r
                                           = Pg.id (Bookings.stay_property st))
                           (Pg.property_reviews (Bookings.listings d)))
      by (rewrite Hf; left).
    apply list_elem_of_filter in Hrv as [Hrid Hrv]. exists review. split; assumption.
Qed.

Lemma X18_witness :
  exists stays,
    getAllReservations Bookings.query (JStr "1") (JNum 2) (mkWorld sample_bookings [])
    = (mkWorld sample_bookings [], Fulfilled (VRows (map Bookings.row_of_stay stays))) /\
    (length stays <= Z.to_nat 2)%nat /\
    StronglySorted start_le stays.
Proof.
  destruct (X18_reservations_of_guest sample_bookings [] (JStr "1") (JNum 2) "1" 1 2
              eq_refl eq_refl ltac:(unfold int4; lia) eq_refl
              ltac:(unfold bigint_max; lia)) as (stays & H1 & H2 & H3 & _).
  exists stays. split; [exact H1 | split; [exact H2 | exact H3]].
Defined.

(** X19.  A guest id that cannot be a number makes the database refuse
    the call: when the text sent for it is empty or starts with a
    character that is neither a blank, nor a sign, nor a digit,
    [getAllReservations] logs one line and returns [null], whatever the
    limit, and the database is left as it is. *)
Theorem X19_reservations_bad_guest d log guest limit s
    (Hguest : Pg.prepare guest = Some s)
    (Hs : starts_like_number s = false) :
  exists line,
    getAllReservations Bookings.query guest limit (mkWorld d log)
    = (mkWorld d (log ++ [line])%list, Fulfilled VNull).
Proof.
  destruct (int_of_text_refuses s Hs) as [e He]. exists (message e).
  unfold getAllReservations. rewrite all_rows_settles. cbn [db console].
  rewrite getAllReservations_query. unfold Bookings.run_reservations, Pg.int_param, Pg.param.
  cbn [lookup list_lookup Nat.sub]. rewrite Hguest. cbn [Pg.res_bind]. rewrite He.
  reflexivity.
Qed.

Lemma X19_witness :
  exists line,
    getAllReservations Bookings.query (JStr "me") JUndefined (mkWorld sample_bookings [])
    = (mkWorld sample_bookings ([] ++ [line])%list, Fulfilled VNull).
Proof.
  exact (X19_reservations_bad_guest sample_bookings [] (JStr "me") JUndefined "me"
           eq_refl eq_refl).
Defined.

Lemma bind_nil {A B} (f : A -> list B) (l : list A) :
  Forall (fun x => f x = []) l -> l ≫= f = [].
Proof.
  induction 1 as [|x l Hx _ IH]; [reflexivity|]. cbn. rewrite Hx, IH. reflexivity.
Qed.

Lemma stays_of_unreviewed d r :
  Forall (fun p => Bookings.property_id r = Pg.id p ->
                   Pg.ratings_of (Bookings.listings d) p = [])
         (Pg.properties (Bookings.listings d)) ->
  Bookings.stays_of d r = [].
Proof.
  unfold Bookings.stays_of. induction 1 as [|p l Hp _ IH]; [reflexivity|].
  cbn [omap list_omap]. fold (@omap list _ _ _ (fun p =>
    if bool_decide (Bookings.property_id r = Pg.id p)
    then match Pg.ratings_of (Bookings.listings d) p with
         | [] => None
         | rs => Some (Bookings.mkStay r p (Pg.average rs))
         end
    else None) l). rewrite IH.
  destruct (bool_decide_reflect (Bookings.property_id r = Pg.id p)) as [Hid|]; [|reflexivity].
  rewrite (Hp Hid). reflexivity.
Qed.

(** X20.  Reservations of properties without a review are dropped: when
    the guest id reads as an integer [g] of the column's range, the
    limit is an integer from 0 to the largest bigint (10 when omitted),
    and none of the properties guest [g] has reserved has a review (or
    the guest has no reservation), [getAllReservations] returns the empty
    list, not [null], and logs nothing. *)
Theorem X20_unreviewed_reservations_are_dropped d log guest limit s g n
    (Hguest : Pg.prepare guest = Some s)
    (Hg : Pg.int_of_text s = Pg.Ok g)
    (Hgrange : int4 g)
    (Hlimit : default_arg limit (JNum 10) = JNum n)
    (Hn : 0 <= n <= bigint_max)
    (Hnone : Forall (fun r =>
               Bookings.guest_id r = g ->
               Forall (fun p => Bookings.property_id r = Pg.id p ->
                                Pg.ratings_of (Bookings.listings d) p = [])
                      (Pg.properties (Bookings.listings d)))
             (Bookings.reservations d)) :
  getAllReservations Bookings.query guest limit (mkWorld d log)
  = (mkWorld d log, Fulfilled (VRows [])).
Proof.
  destruct Hn as [Hn _].
  unfold getAllReservations. rewrite all_rows_settles. cbn [db console].
  rewrite getAllReservations_query, Hlimit. unfold Bookings.run_reservations.
  rewrite (guest_param guest (JNum n) s g Hguest Hg). cbn [Pg.res_bind].
  rewrite (limit_count_number [guest; JNum n] 2 n eq_refl Hn). cbn [Pg.res_bind Pg.settle].
  rewrite bind_nil.
  - cbn [Bookings.order_by_start fold_right Pg.take_limit]. rewrite take_nil. reflexivity.
  - apply Forall_forall. intros r Hr. apply list_elem_of_filter in Hr as [Hgr Hr].
    apply stays_of_unreviewed. rewrite Forall_forall in Hnone. exact (Hnone r Hr Hgr).
Qed.

Lemma X20_witness :
  getAllReservations Bookings.query (JNum 3) JUndefined (mkWorld sample_bookings [])
  = (mkWorld sample_bookings [], Fulfilled (VRows [])).
Proof.
  apply (X20_unreviewed_reservations_are_dropped sample_bookings [] (JNum 3) JUndefined
           "3" 3 10); try reflexivity;
    [unfold int4; lia | unfold bigint_max; lia | ].
  repeat (constructor; [cbn; intros H; try discriminate H | ]); [ | constructor ].
  repeat (constructor; [cbn; intros H'; first [discriminate H' | reflexivity] | ]).
  constructor.
Defined.

(** X21.  [null] as the limit lifts the cap for reservations too: when
    the guest id reads as an integer [g] of the column's range, the list
    holds every reservation of guest [g] whose property has a review,
    each once with that property, in non-decreasing order of
    start_date. *)
Theorem X21_null_limit_returns_all_reservations d log guest s g
    (Hguest : Pg.prepare guest = Some s)
    (Hg : Pg.int_of_text s = Pg.Ok g)
    (Hgrange : int4 g) :
  exists stays,
    getAllReservations Bookings.query guest JNull (mkWorld d log)
    = (mkWorld d log, Fulfilled (VRows (map Bookings.row_of_stay stays))) /\
    map stay_pair stays
    ≡ₚ map stay_pair
         (filter (fun r => Bookings.guest_id r = g) (Bookings.reservations d)
          ≫= Bookings.stays_of d) /\
    StronglySorted start_le stays.
Proof.
  eexists. split; [|split].
  - unfold getAllReservations. rewrite all_rows_settles. cbn [db console].
    rewrite getAllReservations_query. cbn [default_arg]. unfold Bookings.run_reservations.
    rewrite (guest_param guest JNull s g Hguest Hg). cbn [Pg.res_bind].
    rewrite (limit_count_null [guest; JNull] 2 eq_refl). reflexivity.
  - cbn [Pg.take_limit]. rewrite order_by_start_perm. reflexivity.
  - apply order_by_start_sorted.
Qed.

Lemma X21_witness :
  exists stays,
    getAllReservations Bookings.query (JNum 1) JNull (mkWorld sample_bookings [])
    = (mkWorld sample_bookings [], Fulfilled (VRows (map Bookings.row_of_stay stays))) /\
    map stay_pair stays
    ≡ₚ map stay_pair
         (filter (fun r => Bookings.guest_id r = 1) (Bookings.reservations sample_bookings)
          ≫= Bookings.stays_of sample_bookings) /\
    StronglySorted start_le stays.
Proof.
  exact (X21_null_limit_returns_all_reservations sample_bookings [] (JNum 1) "1" 1
           eq_refl eq_refl ltac:(unfold int4; lia)).
Defined.




Lemma int_pred_ok params k s i :
  params !! (k - 1)%nat = Some (JStr s) -> Pg.int_of_text s = Pg.Ok i ->
  Pg.int_param params k = Pg.Ok (Some i).
Proof.
  intros Hk Hs. unfold Pg.int_param, Pg.param. rewrite Hk.
  cbn [Pg.prepare to_string Pg.res_bind]. rewrite Hs. reflexivity.
Qed.



